(** * Round EL language server: completion and resolve handlers

    A shallow embedding of [server/src/server.ts]: the static catalogs
    ([keywords], [functions], [brackets], [quotes]), the three request
    handlers ([onInitialize], [onCompletion], [onCompletionResolve]) and
    the module-level state they close over.

    Modelling conventions.
    - A JavaScript [undefined] property is [None] (or [NoDoc] for the
      documentation, whose value can nest).
    - A handler is a computation over the module-level state that either
      returns a value or throws: [M A := ServerState -> Result A * ServerState].
    - The resolve data carries the shape the handler casts it to,
      [{ type: string; id: number }]; the number is an integer here, and an
      index that selects no element (negative, or past the end) reads
      [undefined], as a fractional index does in JavaScript. *)

From stdpp Require Import base strings list gmap.

Local Open Scope string_scope.
Local Open Scope Z_scope.

(** ** Protocol data *)

(** The members of [CompletionItemKind] the server uses, with their
    protocol numbers. *)
Inductive CompletionItemKind := Text | Function | Keyword.

Definition kind_code (k : CompletionItemKind) : Z :=
  match k with Text => 1 | Function => 3 | Keyword => 14 end.

#[global] Instance CompletionItemKind_eq_dec : EqDecision CompletionItemKind.
Proof. solve_decision. Defined.

Inductive TextDocumentSyncKind := SyncNone | Full | Incremental.

Definition sync_code (k : TextDocumentSyncKind) : Z :=
  match k with SyncNone => 0 | Full => 1 | Incremental => 2 end.

(** [{ type: string; id: number }], the shape [item.data] is cast to. *)
Record ResolveData := { type : string; id : Z }.

(** The value of [item.documentation]: absent, a plain string, or a
    markup object [{ kind, value }].  The fallback branch of the resolve
    handler stores the previous documentation, whatever it is, as the
    [value], hence the nesting. *)
Inductive Documentation :=
| NoDoc
| DocString (s : string)
| MarkupContent (markup_kind : string) (value : Documentation).

Record CompletionItem := {
  label : string;
  kind : CompletionItemKind;
  insertText : option string;
  data : option ResolveData;
  detail : option string;
  documentation : Documentation
}.

#[global] Instance ResolveData_eq_dec : EqDecision ResolveData.
Proof. solve_decision. Defined.

#[global] Instance Documentation_eq_dec : EqDecision Documentation.
Proof. solve_decision. Defined.

#[global] Instance CompletionItem_eq_dec : EqDecision CompletionItem.
Proof. solve_decision. Defined.

(** [item.detail = s] and [item.documentation = d]. *)
Definition set_detail (s : string) (item : CompletionItem) : CompletionItem :=
  {| label := label item; kind := kind item; insertText := insertText item;
     data := data item; detail := Some s; documentation := documentation item |}.

Definition set_documentation (d : Documentation) (item : CompletionItem)
  : CompletionItem :=
  {| label := label item; kind := kind item; insertText := insertText item;
     data := data item; detail := detail item; documentation := d |}.

Record Position := { line : Z; character : Z }.

(** [TextDocumentPositionParams]: [{ textDocument: { uri }, position }]. *)
Record TextDocumentPositionParams := {
  textDocument_uri : string;
  position : Position
}.

Record TextDocument := {
  uri : string;
  languageId : string;
  version : Z;
  getText : string
}.

(** The part of [InitializeParams] the handler reads. *)
Record WorkspaceClientCapabilities := {
  configuration : option bool;
  workspaceFolders : option bool
}.

Record ClientCapabilities := {
  workspace : option WorkspaceClientCapabilities
}.

Record InitializeParams := { capabilities : ClientCapabilities }.

Record CompletionOptions := { resolveProvider : bool }.

Record WorkspaceFoldersServerCapabilities := { supported : bool }.

Record ServerCapabilities := {
  textDocumentSync : TextDocumentSyncKind;
  completionProvider : option CompletionOptions;
  server_workspace : option WorkspaceFoldersServerCapabilities
}.

Record InitializeResult := { server_capabilities : ServerCapabilities }.

(** ** Module-level state and the handler monad *)

Record ServerState := {
  hasConfigurationCapability : bool;
  hasWorkspaceFolderCapability : bool;
  documents : gmap string TextDocument
}.

Definition initial_state : ServerState :=
  {| hasConfigurationCapability := false;
     hasWorkspaceFolderCapability := false;
     documents := ∅ |}.

Inductive Exn := TypeError (message : string).

Inductive Result (A : Type) :=
| Ok (a : A)
| Throw (e : Exn).

Arguments Ok {A} a.
Arguments Throw {A} e.

Definition M (A : Type) : Type := ServerState -> Result A * ServerState.

#[global] Instance M_ret : MRet M := fun A a st => (Ok a, st).

#[global] Instance M_bind : MBind M := fun A B f c st =>
  match c st with
  | (Ok a, st') => f a st'
  | (Throw e, st') => (Throw e, st')
  end.

Definition throw {A} (e : Exn) : M A := fun st => (Throw e, st).

Definition modify (f : ServerState -> ServerState) : M unit :=
  fun st => (Ok tt, f st).

Definition gets {A} (f : ServerState -> A) : M A := fun st => (Ok (f st), st).

(** ** The document manager

    [documents.listen(connection)] keeps one [TextDocument] per open uri;
    the manager is the protocol library's, modelled by its three
    notifications. *)
Inductive Notification :=
| DidOpen (doc : TextDocument)
| DidChange (changed_uri : string) (new_version : Z) (new_text : string)
| DidClose (closed_uri : string).

Definition set_documents (f : gmap string TextDocument -> gmap string TextDocument)
  (st : ServerState) : ServerState :=
  {| hasConfigurationCapability := hasConfigurationCapability st;
     hasWorkspaceFolderCapability := hasWorkspaceFolderCapability st;
     documents := f (documents st) |}.

Definition notify (n : Notification) (st : ServerState) : ServerState :=
  match n with
  | DidOpen doc => set_documents (insert (uri doc) doc) st
  | DidChange u v t =>
      set_documents
        (alter (fun doc => {| uri := uri doc; languageId := languageId doc;
                              version := v; getText := t |}) u) st
  | DidClose u => set_documents (delete u) st
  end.

Definition notify_all (ns : list Notification) (st : ServerState) : ServerState :=
  foldl (fun s n => notify n s) st ns.

(** ** The static catalogs *)

Definition keywords : list string :=
  [ "if"; "else"; "for"; "while"; "break"; "continue"; "return"; "and"; "or";
    "import" ].

Module Fn.
(** An element of [functions]: [{ name, category, documentation }]. *)
Record t := { name : string; category : string; documentation : string }.
End Fn.

Definition functions : list Fn.t :=
  [ {| Fn.name := "to_timestamp"; Fn.category := "Date";
       Fn.documentation := "Convert to timestamp" |};
    {| Fn.name := "to_unix_timestamp"; Fn.category := "Date";
       Fn.documentation := "Convert to Unix timestamp" |};
    {| Fn.name := "parse_date"; Fn.category := "Date";
       Fn.documentation := "Parse date string" |};
    {| Fn.name := "parse_local_datetime"; Fn.category := "Date";
       Fn.documentation := "Parse local datetime" |};
    {| Fn.name := "date_format"; Fn.category := "Date";
       Fn.documentation := "Format date" |};
    {| Fn.name := "print"; Fn.category := "IO";
       Fn.documentation := "Print to stdout" |};
    {| Fn.name := "printf"; Fn.category := "IO";
       Fn.documentation := "Formatted print" |};
    {| Fn.name := "println"; Fn.category := "IO";
       Fn.documentation := "Print with newline" |};
    {| Fn.name := "printi"; Fn.category := "IO";
       Fn.documentation := "Print integer" |};
    {| Fn.name := "interpolate"; Fn.category := "IO";
       Fn.documentation := "String interpolation" |};
    {| Fn.name := "rand"; Fn.category := "Random";
       Fn.documentation := "Random float" |};
    {| Fn.name := "randi"; Fn.category := "Random";
       Fn.documentation := "Random integer" |};
    {| Fn.name := "choose"; Fn.category := "Random";
       Fn.documentation := "Choose random element" |};
    {| Fn.name := "uuid"; Fn.category := "Random";
       Fn.documentation := "Generate UUID" |};
    {| Fn.name := "uuid32"; Fn.category := "Random";
       Fn.documentation := "Generate 32-char UUID" |};
    {| Fn.name := "uuid36"; Fn.category := "Random";
       Fn.documentation := "Generate 36-char UUID" |};
    {| Fn.name := "reverse"; Fn.category := "String";
       Fn.documentation := "Reverse string or array" |} ].

(** [{ label: s, kind: CompletionItemKind.Text, insertText: s }]. *)
Definition textItem (s : string) : CompletionItem :=
  {| label := s; kind := Text; insertText := Some s; data := None;
     detail := None; documentation := NoDoc |}.

Definition brackets : list CompletionItem :=
  [ textItem "("; textItem ")"; textItem "{"; textItem "}"; textItem "[";
    textItem "]" ].

(** The one-character string holding the double quote, character 34. *)
Definition double_quote : string :=
  String (Ascii.ascii_of_nat 34) EmptyString.

Definition quotes : list CompletionItem :=
  [ textItem double_quote; textItem "'" ].

(** ** [connection.onInitialize] *)

(** [!!(capabilities.workspace && !!capabilities.workspace.f)]. *)
Definition workspace_flag (f : WorkspaceClientCapabilities -> option bool)
  (c : ClientCapabilities) : bool :=
  match workspace c with
  | Some w => match f w with Some b => b | None => false end
  | None => false
  end.

Definition set_capability_flags (conf folders : bool) (st : ServerState)
  : ServerState :=
  {| hasConfigurationCapability := conf;
     hasWorkspaceFolderCapability := folders;
     documents := documents st |}.

Definition onInitialize (params : InitializeParams) : M InitializeResult :=
  let c := capabilities params in
  modify (set_capability_flags (workspace_flag configuration c)
                               (workspace_flag workspaceFolders c)) ≫= fun _ =>
  folders ← gets hasWorkspaceFolderCapability;
  let result :=
    {| textDocumentSync := Incremental;
       completionProvider := Some {| resolveProvider := true |};
       server_workspace := None |} in
  mret {| server_capabilities :=
            if (folders : bool)
            then {| textDocumentSync := textDocumentSync result;
                    completionProvider := completionProvider result;
                    server_workspace := Some {| supported := true |} |}
            else result |}.

(** ** [connection.onCompletion] *)

(** The two [map] callbacks; [index] is the array position [map] passes. *)
Definition keywordItem (index : nat) (keyword : string) : CompletionItem :=
  {| label := keyword; kind := Keyword; insertText := None;
     data := Some {| type := "keyword"; id := Z.of_nat index |};
     detail := None; documentation := NoDoc |}.

Definition functionItem (index : nat) (func : Fn.t) : CompletionItem :=
  {| label := Fn.name func; kind := Function; insertText := None;
     data := Some {| type := "function"; id := Z.of_nat index |};
     detail := None; documentation := NoDoc |}.

Definition keywordItems : list CompletionItem := imap keywordItem keywords.

Definition functionItems : list CompletionItem := imap functionItem functions.

Definition onCompletion (_textDocumentPosition : TextDocumentPositionParams)
  : M (list CompletionItem) :=
  mret (functionItems ++ keywordItems ++ brackets ++ quotes)%list.

(** ** [connection.onCompletionResolve] *)

(** [array[i]] for a number [i]. *)
Definition index {A} (l : list A) (i : Z) : option A :=
  if decide (0 ≤ i) then l !! Z.to_nat i else None.

(** [`${keyword}`] for a keyword read from the array. *)
Definition template (keyword : option string) : string :=
  match keyword with Some s => s | None => "undefined" end.

(** The [switch (keyword)]: the documentation its matching case assigns,
    none when no case matches. *)
Definition keywordDocumentation (keyword : option string) : option string :=
  match keyword with
  | None => None
  | Some k =>
      if (k =? "if")%string || (k =? "else")%string
      then Some "Conditional statement"
      else if (k =? "for")%string || (k =? "while")%string
      then Some "Loop statement"
      else if (k =? "break")%string then Some "Exit from loop"
      else if (k =? "continue")%string then Some "Skip to next iteration"
      else if (k =? "return")%string then Some "Return from function"
      else if (k =? "and")%string || (k =? "or")%string
      then Some "Logical operator"
      else if (k =? "import")%string then Some "Import statement"
      else None
  end.

(** [data.type] and [data.id]: reading a property of [undefined] throws. *)
Definition read {A} (property : string) (f : ResolveData -> A)
  (d : option ResolveData) : M A :=
  match d with
  | Some r => mret (f r)
  | None =>
      throw (TypeError ("Cannot read properties of undefined (reading '"
                          +:+ property +:+ "')"))
  end.

(** The branches of the [if / else if / else if] chain, in source order;
    [NoBranch] when no test succeeds. *)
Inductive Branch := KeywordBranch | FunctionBranch | FallbackBranch | NoBranch.

Definition select_branch (ty : string) : Branch :=
  if (ty =? "keyword")%string then KeywordBranch
  else if (ty =? "function")%string then FunctionBranch
  else if (ty =? "keyword")%string then FallbackBranch
  else NoBranch.

Definition keywordBranch (item : CompletionItem) : M CompletionItem :=
  i ← read "id" id (data item);
  let keyword := index keywords i in
  let item := set_detail ("Keyword: " +:+ template keyword) item in
  mret (match keywordDocumentation keyword with
        | Some doc => set_documentation (DocString doc) item
        | None => item
        end).

Definition functionBranch (item : CompletionItem) : M CompletionItem :=
  i ← read "id" id (data item);
  match index functions i with
  | None =>
      throw (TypeError "Cannot read properties of undefined (reading 'category')")
  | Some func =>
      let item :=
        set_detail (Fn.category func +:+ ": " +:+ Fn.name func) item in
      mret (set_documentation
              (MarkupContent "markdown" (DocString (Fn.documentation func)))
              item)
  end.

Definition fallbackBranch (item : CompletionItem) : M CompletionItem :=
  mret (set_documentation (MarkupContent "markdown" (documentation item)) item).

(** The handler, with the body of its third branch as a parameter. *)
Definition resolveWith (fallback : CompletionItem -> M CompletionItem)
  (item : CompletionItem) : M CompletionItem :=
  ty ← read "type" type (data item);
  match select_branch ty with
  | KeywordBranch => keywordBranch item
  | FunctionBranch => functionBranch item
  | FallbackBranch => fallback item
  | NoBranch => mret item
  end.

Definition onCompletionResolve : CompletionItem -> M CompletionItem :=
  resolveWith fallbackBranch.

(** The branch a run of the handler enters; none when [data.type] throws
    before the first test. *)
Definition branch_taken (item : CompletionItem) : option Branch :=
  select_branch ∘ type <$> data item.

(** ** Derived notions used by the statements *)

(** The list every completion request returns. *)
Definition completionList : list CompletionItem :=
  (functionItems ++ keywordItems ++ brackets ++ quotes)%list.

(** The key the specification deduplicates on. *)
Definition name_and_kind (item : CompletionItem) : string * CompletionItemKind :=
  (label item, kind item).

(** The keyword items of a list whose label starts with [pre]. *)
Definition keyword_matches (pre : string) (items : list CompletionItem)
  : list CompletionItem :=
  filter (fun item => kind item = Keyword ∧ String.prefix pre (label item) = true)
         items.

(** Whether the identity stored in an item re-locates a catalog entry:
    the lookups are the two the resolve handler performs. *)
Definition locates_entry (item : CompletionItem) : bool :=
  match data item with
  | None => false
  | Some d =>
      match select_branch (type d) with
      | KeywordBranch => bool_decide (is_Some (index keywords (id d)))
      | FunctionBranch => bool_decide (is_Some (index functions (id d)))
      | _ => false
      end
  end.

(** What the two live branches attach to an item. *)
Definition resolvedKeyword (keyword doc : string) (item : CompletionItem)
  : CompletionItem :=
  set_documentation (DocString doc) (set_detail ("Keyword: " +:+ keyword) item).

Definition resolvedFunction (func : Fn.t) (item : CompletionItem)
  : CompletionItem :=
  set_documentation
    (MarkupContent "markdown" (DocString (Fn.documentation func)))
    (set_detail (Fn.category func +:+ ": " +:+ Fn.name func) item).

(** The scenario document [if x { return], open, with the cursor after
    [ret]. *)
Definition scenario_uri : string := "file:///scenario.rel".

Definition scenario_document : TextDocument :=
  {| uri := scenario_uri; languageId := "round-el"; version := 1;
     getText := "if x { return" |}.

Definition scenario_state : ServerState :=
  notify (DidOpen scenario_document) initial_state.

Definition scenario_params : TextDocumentPositionParams :=
  {| textDocument_uri := scenario_uri;
     position := {| line := 0; character := 10 |} |}.

(** A uri that was opened and closed again. *)
Definition closed_uri : string := "file:///closed.rel".

Definition closed_state : ServerState :=
  notify_all
    [ DidOpen {| uri := closed_uri; languageId := "round-el"; version := 1;
                 getText := "print" |};
      DidClose closed_uri ]
    initial_state.

Definition closed_params : TextDocumentPositionParams :=
  {| textDocument_uri := closed_uri;
     position := {| line := 0; character := 5 |} |}.

(** ** Settings, outgoing messages and the rest of the module-level state *)

(** [interface ExampleSettings]. *)
Record ExampleSettings := { maxNumberOfProblems : Z }.

Definition defaultSettings : ExampleSettings := {| maxNumberOfProblems := 1000 |}.

(** The calls made on the connection:
    [connection.client.register(DidChangeConfigurationNotification.type, undefined)],
    [connection.workspace.getConfiguration({ scopeUri, section })] and
    [connection.console.log(message)] by the handlers, and the
    [connection.client.register(DidChangeWorkspaceFoldersNotification.type)]
    the protocol library makes itself when the first workspace-folder
    listener is subscribed. *)
Inductive Outgoing :=
| RegisterDidChangeConfiguration
| RegisterDidChangeWorkspaceFolders
| GetConfiguration (scopeUri section : string)
| ConsoleLog (message : string).

(** A [Thenable<ExampleSettings>]: either [Promise.resolve(settings)], or
    the promise of the client's answer to a configuration request,
    identified by the position of that request among the messages sent. *)
Inductive Thenable :=
| Resolved (settings : ExampleSettings)
| Requested (request : nat).

(** [change.settings] of a configuration notification: [null],
    [undefined], or an object whose [languageServerExample] property is
    absent (or falsy) or holds settings. *)
Inductive Settings :=
| SettingsNull
| SettingsUndefined
| SettingsObject (languageServerExample : option ExampleSettings).

Record DidChangeConfigurationParams := { settings : Settings }.

(** The whole module-level state: the part the completion handlers close
    over, [globalSettings], the [documentSettings] cache, and the calls
    made on the connection so far, oldest first; with the two pieces of
    state the protocol library keeps for workspace-folder events: how many
    listeners are subscribed to its current event emitter, and whether it
    has registered for the notification with the client. *)
Record Server := {
  core : ServerState;
  globalSettings : ExampleSettings;
  documentSettings : gmap string Thenable;
  workspaceFoldersListeners : nat;
  workspaceFoldersRegistered : bool;
  sent : list Outgoing
}.

Definition initial_server : Server :=
  {| core := initial_state; globalSettings := defaultSettings;
     documentSettings := ∅; workspaceFoldersListeners := 0%nat;
     workspaceFoldersRegistered := false; sent := [] |}.

Definition set_core (st : ServerState) (s : Server) : Server :=
  {| core := st; globalSettings := globalSettings s;
     documentSettings := documentSettings s;
     workspaceFoldersListeners := workspaceFoldersListeners s;
     workspaceFoldersRegistered := workspaceFoldersRegistered s;
     sent := sent s |}.

Definition set_globalSettings (g : ExampleSettings) (s : Server) : Server :=
  {| core := core s; globalSettings := g;
     documentSettings := documentSettings s;
     workspaceFoldersListeners := workspaceFoldersListeners s;
     workspaceFoldersRegistered := workspaceFoldersRegistered s;
     sent := sent s |}.

Definition set_documentSettings (f : gmap string Thenable -> gmap string Thenable)
  (s : Server) : Server :=
  {| core := core s; globalSettings := globalSettings s;
     documentSettings := f (documentSettings s);
     workspaceFoldersListeners := workspaceFoldersListeners s;
     workspaceFoldersRegistered := workspaceFoldersRegistered s;
     sent := sent s |}.

Definition set_workspaceFoldersListeners (n : nat) (s : Server) : Server :=
  {| core := core s; globalSettings := globalSettings s;
     documentSettings := documentSettings s;
     workspaceFoldersListeners := n;
     workspaceFoldersRegistered := workspaceFoldersRegistered s;
     sent := sent s |}.

Definition set_workspaceFoldersRegistered (s : Server) : Server :=
  {| core := core s; globalSettings := globalSettings s;
     documentSettings := documentSettings s;
     workspaceFoldersListeners := workspaceFoldersListeners s;
     workspaceFoldersRegistered := true;
     sent := sent s |}.

Definition append_sent (m : Outgoing) (s : Server) : Server :=
  {| core := core s; globalSettings := globalSettings s;
     documentSettings := documentSettings s;
     workspaceFoldersListeners := workspaceFoldersListeners s;
     workspaceFoldersRegistered := workspaceFoldersRegistered s;
     sent := (sent s ++ [m])%list |}.

(** Handlers over the whole state. *)
Definition H (A : Type) : Type := Server -> Result A * Server.

#[global] Instance H_ret : MRet H := fun A a s => (Ok a, s).

#[global] Instance H_bind : MBind H := fun A B f c s =>
  match c s with
  | (Ok a, s') => f a s'
  | (Throw e, s') => (Throw e, s')
  end.

Definition throwH {A} (e : Exn) : H A := fun s => (Throw e, s).

Definition modifyH (f : Server -> Server) : H unit := fun s => (Ok tt, f s).

Definition getsH {A} (f : Server -> A) : H A := fun s => (Ok (f s), s).

Definition send (m : Outgoing) : H unit := modifyH (append_sent m).

(** A handler of the completion part, run on its part of the state. *)
Definition liftM {A} (m : M A) : H A := fun s =>
  let (r, st) := m (core s) in (r, set_core st s).

(** ** [connection.onInitialized] and the workspace-folder listeners *)

(** The protocol library's side of workspace-folder events, modelled as
    far as the handlers use it.
    - At an initialize request whose client declares
      [workspace.workspaceFolders], the library starts a new event emitter:
      the listeners subscribed before are dropped.
    - [connection.workspace.onDidChangeWorkspaceFolders(listener)]
      registers for the notification with the client unless the library
      has done so before, and subscribes the listener: one more listener
      at every call.
    - A workspace-folder change event runs every subscribed listener. *)
Definition initializeWorkspaceFolders (params : InitializeParams) : H unit :=
  if workspace_flag workspaceFolders (capabilities params)
  then modifyH (set_workspaceFoldersListeners 0)
  else mret tt.

Definition onDidChangeWorkspaceFolders : H unit :=
  registered ← getsH workspaceFoldersRegistered;
  (if (registered : bool) then mret tt
   else send RegisterDidChangeWorkspaceFolders ≫= fun _ =>
        modifyH set_workspaceFoldersRegistered) ≫= fun _ =>
  n ← getsH workspaceFoldersListeners;
  modifyH (set_workspaceFoldersListeners (S n)).

Definition onInitialized : H unit :=
  conf ← getsH (hasConfigurationCapability ∘ core);
  (if (conf : bool) then send RegisterDidChangeConfiguration else mret tt) ≫= fun _ =>
  folders ← getsH (hasWorkspaceFolderCapability ∘ core);
  if (folders : bool) then onDidChangeWorkspaceFolders else mret tt.

(** The listener [onInitialized] subscribes:
    [_event => connection.console.log(...)]. *)
Definition workspaceFoldersListener : H unit :=
  send (ConsoleLog "Workspace folder change event received.").

(** A workspace-folder change event: each subscribed listener runs. *)
Definition workspaceFoldersChanged : H unit :=
  n ← getsH workspaceFoldersListeners;
  Nat.iter n (fun rest => workspaceFoldersListener ≫= fun _ => rest) (mret tt).

(** ** [connection.onDidChangeConfiguration] *)

Definition onDidChangeConfiguration (change : DidChangeConfigurationParams)
  : H unit :=
  conf ← getsH (hasConfigurationCapability ∘ core);
  if (conf : bool) then modifyH (set_documentSettings (fun _ => ∅))
  else
    match settings change with
    | SettingsNull =>
        throwH (TypeError
          "Cannot read properties of null (reading 'languageServerExample')")
    | SettingsUndefined =>
        throwH (TypeError
          "Cannot read properties of undefined (reading 'languageServerExample')")
    | SettingsObject example =>
        modifyH (set_globalSettings (default defaultSettings example))
    end.

(** ** [getDocumentSettings] *)

(** [connection.workspace.getConfiguration({ scopeUri, section })]: sends
    the request and returns the promise of its answer. *)
Definition getConfiguration (scopeUri section : string) : H Thenable :=
  n ← getsH (length ∘ sent);
  send (GetConfiguration scopeUri section) ≫= fun _ =>
  mret (Requested n).

Definition getDocumentSettings (resource : string) : H Thenable :=
  conf ← getsH (hasConfigurationCapability ∘ core);
  if negb conf then g ← getsH globalSettings; mret (Resolved g)
  else
    cached ← getsH (fun s => documentSettings s !! resource);
    match cached with
    | Some result => mret result
    | None =>
        result ← getConfiguration resource "languageServerExample";
        modifyH (set_documentSettings (insert resource result)) ≫= fun _ =>
        mret result
    end.

(** ** [connection.onDidChangeWatchedFiles] *)

Definition onDidChangeWatchedFiles : H unit :=
  send (ConsoleLog "We received a file change event").

(** ** The server as a whole

    One step per message received, or per call of [getDocumentSettings]. *)

Inductive Step :=
| Initialize (params : InitializeParams)
| Initialized
| DidChangeConfiguration (change : DidChangeConfigurationParams)
| DidChangeWatchedFiles
| DidChangeWorkspaceFolders
| Completion (params : TextDocumentPositionParams)
| CompletionResolve (item : CompletionItem)
| DocumentSettings (resource : string).

Definition discard {A} (h : H A) : H unit := h ≫= fun _ => mret tt.

Definition handle (m : Step) : H unit :=
  match m with
  | Initialize params =>
      initializeWorkspaceFolders params ≫= fun _ =>
      discard (liftM (onInitialize params))
  | Initialized => onInitialized
  | DidChangeConfiguration change => onDidChangeConfiguration change
  | DidChangeWatchedFiles => onDidChangeWatchedFiles
  | DidChangeWorkspaceFolders => workspaceFoldersChanged
  | Completion params => discard (liftM (onCompletion params))
  | CompletionResolve item => discard (liftM (onCompletionResolve item))
  | DocumentSettings resource => discard (getDocumentSettings resource)
  end.

(** The state after a sequence of steps; a handler that throws leaves the
    state as it was at the throw. *)
Definition run (ms : list Step) (s : Server) : Server :=
  foldl (fun s m => snd (handle m s)) s ms.

(** ** The client extension, [client/src/extension.ts]

    The editor is seen through the calls the extension makes on it, kept
    in order in [effects]; [client] and [terminal] are the two
    module-level variables, [subscriptions] is [context.subscriptions]. *)
Module Extension.

Inductive TransportKind := stdio | ipc | pipe | socket.

(** [{ module, transport }]. *)
Record NodeModule := { node_module : string; transport : TransportKind }.

Record ServerOptions := { run : NodeModule; debug : NodeModule }.

Record DocumentFilter := { scheme : string; language : string }.

(** [{ documentSelector, synchronize: { fileEvents } }], the watcher
    standing for the glob it was created with. *)
Record LanguageClientOptions := {
  documentSelector : list DocumentFilter;
  synchronize_fileEvents : string
}.

Record LanguageClient := {
  client_id : string;
  client_name : string;
  serverOptions : ServerOptions;
  clientOptions : LanguageClientOptions
}.

Record Terminal := { terminal_name : string }.

Inductive Disposable :=
| TerminalDisposable (t : Terminal)
| CommandDisposable (command : string).

Inductive Effect :=
| CreateFileSystemWatcher (glob : string)
| ClientStart (c : LanguageClient)
| ClientStop (c : LanguageClient)
| RegisterCommand (command : string)
| ShowErrorMessage (message : string)
| CreateTerminal (name : string)
| TerminalShow (t : Terminal)
| TerminalSendText (t : Terminal) (text : string).

Definition is_CreateTerminal (e : Effect) : bool :=
  match e with CreateTerminal _ => true | _ => false end.

Definition is_ShowErrorMessage (e : Effect) : bool :=
  match e with ShowErrorMessage _ => true | _ => false end.

(** The document of [window.activeTextEditor], as far as it is read. *)
Record TextDocument := {
  languageId : string;
  isUntitled : bool;
  uri_scheme : string;
  fileName : string
}.

Record State := {
  client : option LanguageClient;
  terminal : option Terminal;
  subscriptions : list Disposable;
  effects : list Effect
}.

Definition initial : State :=
  {| client := None; terminal := None; subscriptions := []; effects := [] |}.

Definition effect (e : Effect) (st : State) : State :=
  {| client := client st; terminal := terminal st;
     subscriptions := subscriptions st; effects := (effects st ++ [e])%list |}.

Definition push (d : Disposable) (st : State) : State :=
  {| client := client st; terminal := terminal st;
     subscriptions := (subscriptions st ++ [d])%list; effects := effects st |}.

Definition set_client (c : LanguageClient) (st : State) : State :=
  {| client := Some c; terminal := terminal st;
     subscriptions := subscriptions st; effects := effects st |}.

Definition set_terminal (t : Terminal) (st : State) : State :=
  {| client := client st; terminal := Some t;
     subscriptions := subscriptions st; effects := effects st |}.

(** [`rel "${filePath}"`]. *)
Definition rel_command (filePath : string) : string :=
  "rel " +:+ double_quote +:+ filePath +:+ double_quote.

(** [runRel(context)], with the value of [window.activeTextEditor]. *)
Definition runRel (activeTextEditor : option TextDocument) (st : State) : State :=
  match activeTextEditor with
  | None => effect (ShowErrorMessage "No active editor") st
  | Some document =>
      if negb (languageId document =? "round-el")%string
      then effect (ShowErrorMessage "Current file is not a Round El file") st
      else if negb (isUntitled document) && (uri_scheme document =? "file")%string
      then
        let filePath := fileName document in
        let st :=
          match terminal st with
          | Some _ => st
          | None =>
              let t := {| terminal_name := "Round El" |} in
              push (TerminalDisposable t)
                   (set_terminal t (effect (CreateTerminal "Round El") st))
          end in
        match terminal st with
        | Some t =>
            effect (TerminalSendText t (rel_command filePath))
                   (effect (TerminalShow t) st)
        | None => st
        end
      else st
  end.

(** [activate(context)]; [path_join] is Node's [path.join] and
    [asAbsolutePath] the context's method. *)
Definition activate (path_join : list string -> string)
  (asAbsolutePath : string -> string) (st : State) : State :=
  let serverModule := asAbsolutePath (path_join ["server"; "out"; "server.js"]) in
  let serverOptions :=
    {| run := {| node_module := serverModule; transport := ipc |};
       debug := {| node_module := serverModule; transport := ipc |} |} in
  let st := effect (CreateFileSystemWatcher "**/.clientrc") st in
  let clientOptions :=
    {| documentSelector := [ {| scheme := "file"; language := "round-el" |} ];
       synchronize_fileEvents := "**/.clientrc" |} in
  let c :=
    {| client_id := "languageServerExample";
       client_name := "Language Server Example";
       serverOptions := serverOptions; clientOptions := clientOptions |} in
  let st := effect (ClientStart c) (set_client c st) in
  push (CommandDisposable "round-el.runFile")
       (effect (RegisterCommand "round-el.runFile") st).

(** [deactivate()]: [undefined] without a client, else the promise of
    [client.stop()]. *)
Definition deactivate (st : State) : option LanguageClient * State :=
  match client st with
  | None => (None, st)
  | Some c => (Some c, effect (ClientStop c) st)
  end.

(** Whether [runRel] hands the document to the terminal. *)
Definition runnable (activeTextEditor : option TextDocument) : bool :=
  match activeTextEditor with
  | None => false
  | Some document =>
      (languageId document =? "round-el")%string
      && negb (isUntitled document)
      && (uri_scheme document =? "file")%string
  end.

(** The state after [runRel] is run once per editor of the list. *)
Definition runRels (editors : list (option TextDocument)) (st : State) : State :=
  foldl (fun st editor => runRel editor st) st editors.

End Extension.

(** ** Basic facts *)

Section Setters.
Variables (s s' : string) (d d' : Documentation) (item : CompletionItem).

Lemma data_set_detail : data (set_detail s item) = data item.
Proof. reflexivity. Qed.

Lemma data_set_documentation : data (set_documentation d item) = data item.
Proof. reflexivity. Qed.

Lemma set_detail_twice : set_detail s (set_detail s' item) = set_detail s item.
Proof. reflexivity. Qed.

Lemma set_documentation_twice :
  set_documentation d (set_documentation d' item) = set_documentation d item.
Proof. reflexivity. Qed.

Lemma set_detail_documentation :
  set_detail s (set_documentation d item)
  = set_documentation d (set_detail s item).
Proof. reflexivity. Qed.
End Setters.

Lemma onCompletion_run p st : onCompletion p st = (Ok completionList, st).
Proof. reflexivity. Qed.

Lemma select_branch_cases ty :
  (ty = "keyword" ∧ select_branch ty = KeywordBranch)
  ∨ (ty = "function" ∧ select_branch ty = FunctionBranch)
  ∨ (ty ≠ "keyword" ∧ ty ≠ "function" ∧ select_branch ty = NoBranch).
Proof.
  unfold select_branch.
  destruct (String.eqb_spec ty "keyword") as [->|Hk]; [by left|].
  destruct (String.eqb_spec ty "function") as [->|Hf]; [by right; left|].
  by right; right.
Qed.

Lemma index_Some {A} (l : list A) (i : nat) : index l (Z.of_nat i) = l !! i.
Proof.
  unfold index. rewrite decide_True by lia. by rewrite Nat2Z.id.
Qed.

Lemma notify_preserves_flags n st :
  hasConfigurationCapability (notify n st) = hasConfigurationCapability st
  ∧ hasWorkspaceFolderCapability (notify n st) = hasWorkspaceFolderCapability st.
Proof. by destruct n. Qed.

(** Opening a document registers it, closing it removes it. *)
Lemma notify_open_lookup doc st :
  documents (notify (DidOpen doc) st) !! uri doc = Some doc.
Proof. cbn. apply lookup_insert_eq. Qed.

Lemma notify_close_lookup u st : documents (notify (DidClose u) st) !! u = None.
Proof. cbn. apply lookup_delete_eq. Qed.

(** The three characters before the scenario's cursor are [ret]. *)
Example scenario_prefix :
  documents scenario_state !! textDocument_uri scenario_params
  = Some scenario_document
  ∧ String.substring 7 3 (getText scenario_document) = "ret".
Proof. split; [apply notify_open_lookup | reflexivity]. Qed.

(** ** The completion list *)

(** C1: every completion request returns, without error and whatever the
    position parameters and the server state (hence whatever prefix the
    cursor follows), the builtin-function items, then the keyword items,
    then the bracket items, then the quote items, each group in catalog
    order; the list is the whole union of the catalogs and holds no two
    items of the same name and kind. *)
Theorem completion_is_stable_merge (p : TextDocumentPositionParams)
  (st : ServerState) :
  ∃ items,
    onCompletion p st = (Ok items, st)
    ∧ items = (imap functionItem functions ++ imap keywordItem keywords
               ++ brackets ++ quotes)%list
    ∧ name_and_kind <$> items
      = (((fun f => (Fn.name f, Function)) <$> functions)
         ++ ((fun k => (k, Keyword)) <$> keywords)
         ++ ((fun s => (s, Text)) <$> ["("; ")"; "{"; "}"; "["; "]"])
         ++ ((fun s => (s, Text)) <$> [double_quote; "'"]))%list
    ∧ NoDup (name_and_kind <$> items).
Proof.
  exists completionList. split_and!; [done | done | done |].
  by apply (bool_decide_unpack _); vm_compute.
Qed.

(** C5: the completion handler is a constant function: any two
    invocations, with any position parameters and in any server states,
    return equal lists; in particular the list is the same after any
    sequence of open, change and close notifications. *)
Theorem completion_is_constant (p1 p2 : TextDocumentPositionParams)
  (st1 st2 : ServerState) (ns : list Notification) :
  fst (onCompletion p1 st1) = fst (onCompletion p2 st2)
  ∧ fst (onCompletion p2 (notify_all ns st1)) = fst (onCompletion p1 st1).
Proof. by rewrite !onCompletion_run. Qed.

(** ** Initialization *)

Lemma onInitialize_run params st :
  onInitialize params st
  = (Ok {| server_capabilities :=
             {| textDocumentSync := Incremental;
                completionProvider := Some {| resolveProvider := true |};
                server_workspace :=
                  if workspace_flag workspaceFolders (capabilities params)
                  then Some {| supported := true |} else None |} |},
     set_capability_flags
       (workspace_flag configuration (capabilities params))
       (workspace_flag workspaceFolders (capabilities params)) st).
Proof.
  unfold onInitialize, mbind, M_bind, modify, gets, mret, M_ret. cbn.
  by destruct (workspace_flag workspaceFolders (capabilities params)).
Qed.

(** C9: every initialize request returns capabilities that declare
    completion with [resolveProvider] set to true and incremental
    text-document synchronization. *)
Theorem initialize_capabilities (params : InitializeParams) (st : ServerState) :
  ∃ result st',
    onInitialize params st = (Ok result, st')
    ∧ completionProvider (server_capabilities result)
      = Some {| resolveProvider := true |}
    ∧ textDocumentSync (server_capabilities result) = Incremental
    ∧ sync_code (textDocumentSync (server_capabilities result)) = 2.
Proof.
  eexists _, _. rewrite onInitialize_run. by split_and!.
Qed.

(** ** The resolve handler, branch by branch *)

Section Resolve.
Variables (fallback : CompletionItem -> M CompletionItem).
Variables (item : CompletionItem) (st : ServerState).

Lemma resolve_no_data :
  data item = None →
  resolveWith fallback item st
  = (Throw (TypeError "Cannot read properties of undefined (reading 'type')"),
     st).
Proof. intros Hd. unfold resolveWith, mbind, M_bind. by rewrite Hd. Qed.

Lemma resolve_keyword d :
  data item = Some d → type d = "keyword" →
  resolveWith fallback item st
  = (Ok (let item' :=
           set_detail ("Keyword: " +:+ template (index keywords (id d))) item
         in match keywordDocumentation (index keywords (id d)) with
            | Some doc => set_documentation (DocString doc) item'
            | None => item'
            end), st).
Proof.
  intros Hd Hty.
  unfold resolveWith, keywordBranch, mbind, M_bind. rewrite Hd. cbn.
  by rewrite Hty.
Qed.

Lemma resolve_function d :
  data item = Some d → type d = "function" →
  resolveWith fallback item st
  = (match index functions (id d) with
     | Some func => Ok (resolvedFunction func item)
     | None =>
         Throw (TypeError
                  "Cannot read properties of undefined (reading 'category')")
     end, st).
Proof.
  intros Hd Hty.
  unfold resolveWith, functionBranch, mbind, M_bind. rewrite Hd. cbn.
  rewrite Hty. cbn. by destruct (index functions (id d)).
Qed.

Lemma resolve_other d :
  data item = Some d → type d ≠ "keyword" → type d ≠ "function" →
  resolveWith fallback item st = (Ok item, st).
Proof.
  intros Hd Hk Hf.
  unfold resolveWith, mbind, M_bind. rewrite Hd. cbn.
  destruct (select_branch_cases (type d)) as [[? _]|[[? _]|(_ & _ & ->)]];
    done.
Qed.
End Resolve.

(** The handler neither reads nor writes the server state. *)
Lemma resolve_state_independent item st1 st2 :
  fst (onCompletionResolve item st1) = fst (onCompletionResolve item st2)
  ∧ snd (onCompletionResolve item st1) = st1.
Proof.
  unfold onCompletionResolve.
  destruct (data item) as [d|] eqn:Hd; [|by rewrite !resolve_no_data].
  destruct (select_branch_cases (type d)) as [[Hk _]|[[Hf _]|(Hk & Hf & _)]].
  - by rewrite !(resolve_keyword _ _ _ d).
  - by rewrite !(resolve_function _ _ _ d).
  - by rewrite !(resolve_other _ _ _ d).
Qed.

(** Every keyword of the catalog has a case in the [switch]. *)
Lemma keywordDocumentation_catalog :
  Forall (fun k => is_Some (keywordDocumentation (Some k))) keywords.
Proof. repeat constructor; by eexists. Qed.

(** ** Idempotence and dead code *)

(** C4: resolve is idempotent: resolving the result of resolving an item
    gives what resolving the item once gives, in every server state (and
    where the first resolve throws, so does the composition, with the same
    error). *)
Theorem resolve_idempotent (item : CompletionItem) (st : ServerState) :
  (onCompletionResolve item ≫= onCompletionResolve) st
  = onCompletionResolve item st.
Proof.
  unfold onCompletionResolve, mbind at 1, M_bind at 1.
  destruct (data item) as [d|] eqn:Hd; [|by rewrite resolve_no_data].
  destruct (select_branch_cases (type d)) as [[Hk _]|[[Hf _]|(Hk & Hf & _)]].
  - rewrite (resolve_keyword _ _ _ d Hd Hk). cbn zeta.
    destruct (keywordDocumentation (index keywords (id d))) as [doc|] eqn:Hdoc.
    + rewrite (resolve_keyword _ _ _ d) by done. by rewrite Hdoc.
    + rewrite (resolve_keyword _ _ _ d) by done. by rewrite Hdoc.
  - rewrite (resolve_function _ _ _ d Hd Hf).
    destruct (index functions (id d)) as [func|] eqn:Hfunc; [|done].
    rewrite (resolve_function _ _ _ d) by done. by rewrite Hfunc.
  - rewrite (resolve_other _ _ _ d Hd Hk Hf). by apply resolve_other with d.
Qed.

(** C10: the second branch testing [data.type === 'keyword'] is
    unreachable: no item makes the handler enter it, so the handler behaves
    the same whatever that branch would do; the first keyword branch takes
    every keyword-tagged item, and assigns a string documentation for every
    keyword of the catalog. *)
Theorem keyword_fallback_unreachable (item : CompletionItem) (st : ServerState)
  (fallback : CompletionItem -> M CompletionItem) :
  branch_taken item ≠ Some FallbackBranch
  ∧ resolveWith fallback item st = onCompletionResolve item st
  ∧ Forall (fun k => ∃ doc, keywordDocumentation (Some k) = Some doc) keywords.
Proof.
  split_and!.
  - unfold branch_taken. destruct (data item) as [d|]; [cbn|done].
    destruct (select_branch_cases (type d))
      as [[_ ->]|[[_ ->]|(_ & _ & ->)]]; done.
  - unfold onCompletionResolve.
    destruct (data item) as [d|] eqn:Hd; [|by rewrite !resolve_no_data].
    destruct (select_branch_cases (type d)) as [[Hk _]|[[Hf _]|(Hk & Hf & _)]].
    + by rewrite !(resolve_keyword _ _ _ d).
    + by rewrite !(resolve_function _ _ _ d).
    + by rewrite !(resolve_other _ _ _ d).
  - apply keywordDocumentation_catalog.
Qed.

(** ** Lazy documentation *)

(** C8: no item of the initial completion list carries a detail or a
    documentation; the builtin [to_timestamp] heads the list without its
    category, and it is resolving it that attaches the detail
    [Date: to_timestamp] and the markdown documentation. *)
Theorem documentation_attached_on_resolve (p : TextDocumentPositionParams)
  (st : ServerState) :
  ∃ items item r,
    onCompletion p st = (Ok items, st)
    ∧ Forall (fun i => detail i = None ∧ documentation i = NoDoc) items
    ∧ items !! 0%nat = Some item
    ∧ label item = "to_timestamp" ∧ kind item = Function
    ∧ detail item = None ∧ documentation item = NoDoc
    ∧ onCompletionResolve item st = (Ok r, st)
    ∧ r = set_documentation
            (MarkupContent "markdown" (DocString "Convert to timestamp"))
            (set_detail "Date: to_timestamp" item)
    ∧ label r = "to_timestamp" ∧ kind r = Function
    ∧ detail r = Some "Date: to_timestamp"
    ∧ documentation r
      = MarkupContent "markdown" (DocString "Convert to timestamp").
Proof.
  exists completionList,
    (functionItem 0 (Fn.Build_t "to_timestamp" "Date" "Convert to timestamp")).
  eexists.
  split_and!; [apply onCompletion_run | by repeat constructor | done | done
              | done | done | done | | reflexivity | done | done | done | done].
  unfold onCompletionResolve.
  by rewrite (resolve_function _ _ _ {| type := "function"; id := 0 |}).
Qed.

(** ** Items whose identity locates no catalog entry *)

(** A function item indexed one past the end of [functions], and a keyword
    item indexed one past the end of [keywords]. *)
Definition stale_function : CompletionItem :=
  {| label := "reverse"; kind := Function; insertText := None;
     data := Some {| type := "function"; id := 17 |};
     detail := None; documentation := NoDoc |}.

Definition stale_keyword : CompletionItem :=
  {| label := "import"; kind := Keyword; insertText := None;
     data := Some {| type := "keyword"; id := 10 |};
     detail := None; documentation := NoDoc |}.

(** An item tagged with a catalog the server does not have. *)
Definition snippet_item : CompletionItem :=
  {| label := "main"; kind := Text; insertText := None;
     data := Some {| type := "snippet"; id := 0 |};
     detail := None; documentation := NoDoc |}.

(** C2, as stated, fails: the bracket item [(] the server itself returns
    carries no data and makes resolve throw; a function item with an
    out-of-range index makes it throw as well; a keyword item with an
    out-of-range index comes back modified. *)
Lemma resolve_fails_without_entry :
  textItem "(" ∈ completionList
  ∧ locates_entry (textItem "(") = false
  ∧ fst (onCompletionResolve (textItem "(") initial_state)
    = Throw (TypeError "Cannot read properties of undefined (reading 'type')")
  ∧ locates_entry stale_function = false
  ∧ fst (onCompletionResolve stale_function initial_state)
    = Throw (TypeError "Cannot read properties of undefined (reading 'category')")
  ∧ locates_entry stale_keyword = false
  ∧ fst (onCompletionResolve stale_keyword initial_state)
    = Ok (set_detail "Keyword: undefined" stale_keyword)
  ∧ set_detail "Keyword: undefined" stale_keyword ≠ stale_keyword.
Proof.
  split_and!; try reflexivity; [|discriminate].
  apply list_elem_of_lookup. by exists 27%nat.
Qed.

(** C2, amended: an item that carries resolve data locating no catalog
    entry, under a tag other than [function], is resolved without failure:
    returned unmodified when the tag is not [keyword] either, and with
    only its detail set to [Keyword: undefined] when it is; and the
    completion handler returns a list for every input. *)
Theorem resolve_without_entry (item : CompletionItem) (d : ResolveData)
  (st : ServerState) (p : TextDocumentPositionParams)
  (Hd : data item = Some d) (Hstale : locates_entry item = false)
  (Hfn : type d ≠ "function") :
  (∃ r, onCompletionResolve item st = (Ok r, st)
        ∧ (type d ≠ "keyword" → r = item)
        ∧ (type d = "keyword" → r = set_detail "Keyword: undefined" item))
  ∧ ∃ items, onCompletion p st = (Ok items, st).
Proof.
  split; [|by eexists].
  unfold onCompletionResolve, locates_entry in *. rewrite Hd in Hstale.
  destruct (select_branch_cases (type d))
    as [[Hk Hb]|[[Hf _]|(Hk & _ & _)]]; [| done |].
  - rewrite Hb in Hstale. apply bool_decide_eq_false in Hstale.
    apply eq_None_not_Some in Hstale.
    rewrite (resolve_keyword _ _ _ d Hd Hk), Hstale. cbn.
    eexists. split_and!; [done | done | done].
  - rewrite (resolve_other _ _ _ d Hd Hk Hfn).
    eexists. split_and!; [done | done | done].
Qed.

Lemma resolve_without_entry_witness :
  (∃ r, onCompletionResolve snippet_item initial_state = (Ok r, initial_state)
        ∧ (type {| type := "snippet"; id := 0 |} ≠ "keyword" → r = snippet_item)
        ∧ (type {| type := "snippet"; id := 0 |} = "keyword"
           → r = set_detail "Keyword: undefined" snippet_item))
  ∧ ∃ items, onCompletion closed_params initial_state = (Ok items, initial_state).
Proof.
  apply (resolve_without_entry snippet_item {| type := "snippet"; id := 0 |}
           initial_state closed_params);
    [reflexivity | reflexivity | discriminate].
Defined.

(** ** Requests against documents that are not open *)

(** C3, as stated, fails: a completion request for a uri that was opened
    and closed again, or never opened, returns the completion list, not a
    failure. *)
Lemma completion_on_closed_uri_succeeds :
  documents closed_state !! textDocument_uri closed_params = None
  ∧ fst (onCompletion closed_params closed_state) = Ok completionList
  ∧ documents initial_state !! textDocument_uri closed_params = None
  ∧ fst (onCompletion closed_params initial_state) = Ok completionList.
Proof.
  split_and!; [apply notify_close_lookup | done | apply lookup_empty | done].
Qed.

(** C3, amended: a completion request whose uri names no open document
    succeeds like any other: it returns the full completion list and
    leaves the server state as it was; the handler has no
    document-not-found condition. *)
Theorem completion_ignores_open_documents (p : TextDocumentPositionParams)
  (st : ServerState) (Hclosed : documents st !! textDocument_uri p = None) :
  onCompletion p st = (Ok completionList, st).
Proof. apply onCompletion_run. Qed.

Lemma completion_ignores_open_documents_witness :
  onCompletion closed_params closed_state = (Ok completionList, closed_state).
Proof.
  apply (completion_ignores_open_documents closed_params closed_state).
  vm_compute. reflexivity.
Defined.

(** ** The prefix scenario *)

(** C6, as stated, fails: with the document [if x { return] open and the
    cursor after [ret], the completion list does not exclude the keyword
    [if]. *)
Lemma scenario_completion_includes_if :
  ¬ ∃ items,
      fst (onCompletion scenario_params scenario_state) = Ok items
      ∧ keywordItem 6 "return" ∈ items
      ∧ head (keyword_matches "ret" items) = Some (keywordItem 6 "return")
      ∧ "if" ∉ label <$> filter (fun item => kind item = Keyword) items.
Proof.
  intros (items & Hrun & _ & _ & Hif).
  rewrite onCompletion_run in Hrun. injection Hrun as <-.
  apply Hif. apply list_elem_of_lookup. by exists 0%nat.
Qed.

(** C6, amended: for that document and cursor, as for any request, the
    completion list is not filtered by the prefix: it includes the keyword
    [return], which is the first and only keyword item matching [ret],
    and it includes the keyword [if] and every other keyword as well. *)
Theorem completion_keeps_every_keyword (p : TextDocumentPositionParams)
  (st : ServerState) :
  ∃ items,
    onCompletion p st = (Ok items, st)
    ∧ keywordItem 6 "return" ∈ items
    ∧ keyword_matches "ret" items = [keywordItem 6 "return"]
    ∧ keywordItem 0 "if" ∈ items
    ∧ label <$> filter (fun item => kind item = Keyword) items = keywords.
Proof.
  exists completionList. split_and!.
  - apply onCompletion_run.
  - apply list_elem_of_lookup. by exists 23%nat.
  - vm_compute. reflexivity.
  - apply list_elem_of_lookup. by exists 17%nat.
  - vm_compute. reflexivity.
Qed.

(** ** Resolve data *)

(** C7, as stated, fails: the resolve data of the item for
    [to_unix_timestamp] is the tag [function] with the number 1, the
    entry's array position, and the data a callback builds for one and the
    same entry changes with the position it is given. *)
Lemma resolve_data_depends_on_position :
  (∃ item,
     completionList !! 1%nat = Some item
     ∧ label item = "to_unix_timestamp"
     ∧ data item = Some {| type := "function"; id := 1 |})
  ∧ ¬ (∀ (i j : nat) (func : Fn.t) (keyword : string),
         data (functionItem i func) = data (functionItem j func)
         ∧ data (keywordItem i keyword) = data (keywordItem j keyword)).
Proof.
  split.
  - by eexists.
  - intros H.
    destruct (H 0%nat 1%nat (Fn.Build_t "to_unix_timestamp" "Date"
                               "Convert to Unix timestamp") "if") as [Hf _].
    discriminate Hf.
Qed.

(** C7, amended: the resolve data of a function or keyword item identify
    its catalog entry by the catalog tag and the entry's array position;
    the bracket and quote items, the rest of the list, carry no resolve
    data; the catalogs being constants, the tag and index re-locate that
    same entry at resolve time, in any server state: resolve attaches the
    entry's own category, name and documentation. *)
Theorem resolve_data_relocates_entry (i : nat) (st : ServerState) :
  (∀ func, functions !! i = Some func →
     completionList !! i = Some (functionItem i func)
     ∧ data (functionItem i func)
       = Some {| type := "function"; id := Z.of_nat i |}
     ∧ index functions (Z.of_nat i) = Some func
     ∧ onCompletionResolve (functionItem i func) st
       = (Ok (resolvedFunction func (functionItem i func)), st)
     ∧ label (resolvedFunction func (functionItem i func)) = Fn.name func
     ∧ detail (resolvedFunction func (functionItem i func))
       = Some (Fn.category func +:+ ": " +:+ Fn.name func)
     ∧ documentation (resolvedFunction func (functionItem i func))
       = MarkupContent "markdown" (DocString (Fn.documentation func)))
  ∧ (∀ keyword, keywords !! i = Some keyword →
       completionList !! (length functions + i)%nat
       = Some (keywordItem i keyword)
       ∧ data (keywordItem i keyword)
         = Some {| type := "keyword"; id := Z.of_nat i |}
       ∧ index keywords (Z.of_nat i) = Some keyword
       ∧ ∃ doc, onCompletionResolve (keywordItem i keyword) st
                = (Ok (resolvedKeyword keyword doc (keywordItem i keyword)), st)
                ∧ keywordDocumentation (Some keyword) = Some doc
                ∧ label (resolvedKeyword keyword doc (keywordItem i keyword))
                  = keyword
                ∧ detail (resolvedKeyword keyword doc (keywordItem i keyword))
                  = Some ("Keyword: " +:+ keyword)
                ∧ documentation
                    (resolvedKeyword keyword doc (keywordItem i keyword))
                  = DocString doc)
  ∧ drop (length functions + length keywords) completionList
    = (brackets ++ quotes)%list
  ∧ Forall (fun item => data item = None ∧ kind item = Text)
           (drop (length functions + length keywords) completionList)
  ∧ Forall (fun item => is_Some (data item))
           (take (length functions + length keywords) completionList).
Proof.
  split_and!.
  - intros func Hi. split_and!.
    + unfold completionList. rewrite lookup_app_l.
      * unfold functionItems. by rewrite list_lookup_imap, Hi.
      * unfold functionItems. rewrite length_imap. by eapply lookup_lt_Some.
    + done.
    + by rewrite index_Some.
    + unfold onCompletionResolve.
      rewrite (resolve_function _ _ _ {| type := "function"; id := Z.of_nat i |})
        by done.
      cbn [id]. by rewrite index_Some, Hi.
    + done.
    + done.
    + done.
  - intros keyword Hi. split_and!.
    + unfold completionList. rewrite lookup_app_r.
      * unfold functionItems. rewrite length_imap.
        replace (length functions + i - length functions)%nat with i by lia.
        rewrite lookup_app_l.
        -- unfold keywordItems. by rewrite list_lookup_imap, Hi.
        -- unfold keywordItems. rewrite length_imap. by eapply lookup_lt_Some.
      * unfold functionItems. rewrite length_imap. lia.
    + done.
    + by rewrite index_Some.
    + pose proof keywordDocumentation_catalog as Hdocs.
      rewrite Forall_lookup in Hdocs. destruct (Hdocs i keyword Hi) as [doc Hdoc].
      exists doc. split_and!; [| done | done | done | done].
      unfold onCompletionResolve.
      rewrite (resolve_keyword _ _ _ {| type := "keyword"; id := Z.of_nat i |})
        by done.
      cbn [id]. by rewrite index_Some, Hi, Hdoc.
  - reflexivity.
  - by repeat constructor.
  - repeat constructor; by eexists.
Qed.

Lemma resolve_data_relocates_entry_witness :
  (completionList !! 0%nat
   = Some (functionItem 0 (Fn.Build_t "to_timestamp" "Date" "Convert to timestamp"))
   ∧ onCompletionResolve
       (functionItem 0 (Fn.Build_t "to_timestamp" "Date" "Convert to timestamp"))
       closed_state
     = (Ok (resolvedFunction
              (Fn.Build_t "to_timestamp" "Date" "Convert to timestamp")
              (functionItem 0 (Fn.Build_t "to_timestamp" "Date"
                                 "Convert to timestamp"))), closed_state)
   ∧ detail (resolvedFunction
               (Fn.Build_t "to_timestamp" "Date" "Convert to timestamp")
               (functionItem 0 (Fn.Build_t "to_timestamp" "Date"
                                  "Convert to timestamp")))
     = Some "Date: to_timestamp")
  ∧ completionList !! 17%nat = Some (keywordItem 0 "if")
  ∧ index keywords 0 = Some "if"
  ∧ Forall (fun item => data item = None ∧ kind item = Text)
           (brackets ++ quotes)%list.
Proof.
  destruct (resolve_data_relocates_entry 0 closed_state)
    as (Hf & Hk & Hdrop & Hnone & _).
  destruct (Hf (Fn.Build_t "to_timestamp" "Date" "Convert to timestamp")
               eq_refl) as (Hl & _ & _ & Hr & _ & Hdet & _).
  destruct (Hk "if" eq_refl) as (Hl' & _ & Hi & _).
  rewrite Hdrop in Hnone.
  split; [split; [exact Hl | split; [exact Hr | exact Hdet]]
         | split; [exact Hl' | split; [exact Hi | exact Hnone]]].
Defined.

(** ** More on the resolve handler *)

Lemma index_is_Some {A} (l : list A) (i : Z) :
  is_Some (index l i) ↔ 0 ≤ i < Z.of_nat (length l).
Proof.
  unfold index. case_decide as Hi.
  - rewrite lookup_lt_is_Some. lia.
  - split; [by intros [? ?] | lia].
Qed.

(** X1: resolve throws exactly on an item that carries no resolve data and
    on a function-tagged item whose index is outside the [functions]
    array; a keyword-tagged item never makes it throw, whatever its
    index. *)
Theorem resolve_throws_iff (item : CompletionItem) (st : ServerState) :
  (∃ e, fst (onCompletionResolve item st) = Throw e)
  ↔ data item = None
    ∨ ∃ d, data item = Some d ∧ type d = "function"
           ∧ ¬ (0 ≤ id d < Z.of_nat (length functions)).
Proof.
  unfold onCompletionResolve.
  destruct (data item) as [d|] eqn:Hd.
  - destruct (select_branch_cases (type d)) as [[Hk _]|[[Hf _]|(Hk & Hf & _)]].
    + rewrite (resolve_keyword _ _ _ d Hd Hk). cbn. split.
      * by intros [? ?].
      * intros [?|(d' & [= <-] & Hf & _)]; [done|]. by rewrite Hk in Hf.
    + rewrite (resolve_function _ _ _ d Hd Hf).
      pose proof (index_is_Some functions (id d)) as Hrange.
      destruct (index functions (id d)) as [func|] eqn:Hi; cbn.
      * split; [by intros [? ?]|].
        intros [?|(d' & [= <-] & _ & Hn)]; [done|].
        destruct Hn. by apply Hrange.
      * split; [|by eexists]. intros _. right. exists d.
        split_and!; [done | done |]. intros Hin.
        apply Hrange in Hin. by destruct Hin.
    + rewrite (resolve_other _ _ _ d Hd Hk Hf). cbn. split.
      * by intros [? ?].
      * by intros [?|(d' & [= <-] & ? & _)].
  - rewrite resolve_no_data by done. cbn. split; [by left | by eexists].
Qed.

(** X2: when resolve returns, the item it returns has the label, kind,
    insert text and resolve data of the item it was given, and the server
    state is as before: only the detail and the documentation can
    differ. *)
Theorem resolve_preserves_identity (item r : CompletionItem)
  (st st' : ServerState) (Hrun : onCompletionResolve item st = (Ok r, st')) :
  label r = label item ∧ kind r = kind item
  ∧ insertText r = insertText item ∧ data r = data item ∧ st' = st.
Proof.
  unfold onCompletionResolve in Hrun.
  destruct (data item) as [d|] eqn:Hd;
    [|by rewrite resolve_no_data in Hrun].
  destruct (select_branch_cases (type d)) as [[Hk _]|[[Hf _]|(Hk & Hf & _)]].
  - rewrite (resolve_keyword _ _ _ d Hd Hk) in Hrun. cbn zeta in Hrun.
    destruct (keywordDocumentation _); by injection Hrun as <- <-.
  - rewrite (resolve_function _ _ _ d Hd Hf) in Hrun.
    destruct (index functions (id d)); [|done]. by injection Hrun as <- <-.
  - rewrite (resolve_other _ _ _ d Hd Hk Hf) in Hrun. by injection Hrun as <- <-.
Qed.

Lemma resolve_preserves_identity_witness :
  label (resolvedKeyword "return" "Return from function" (keywordItem 6 "return"))
  = "return"
  ∧ data (resolvedKeyword "return" "Return from function" (keywordItem 6 "return"))
    = Some {| type := "keyword"; id := 6 |}.
Proof.
  destruct (resolve_preserves_identity (keywordItem 6 "return")
              (resolvedKeyword "return" "Return from function"
                 (keywordItem 6 "return"))
              initial_state initial_state eq_refl) as (Hl & _ & _ & Hd & _).
  split; [exact Hl | exact Hd].
Defined.

(** Whether resolving an item in the initial state returns it with a
    detail and a documentation. *)
Definition resolves_with_details (item : CompletionItem) : bool :=
  match fst (onCompletionResolve item initial_state) with
  | Ok r =>
      bool_decide (is_Some (detail r)) && negb (bool_decide (documentation r = NoDoc))
  | Throw _ => false
  end.

Lemma completion_item_resolves item st :
  item ∈ completionList →
  is_Some (data item)
  ↔ ∃ r, onCompletionResolve item st = (Ok r, st)
         ∧ is_Some (detail r) ∧ documentation r ≠ NoDoc.
Proof.
  intros Hin.
  assert (Forall (fun item => bool_decide (is_Some (data item))
                              = resolves_with_details item) completionList)
    as Hall by (by apply (bool_decide_unpack _); vm_compute).
  rewrite Forall_forall in Hall. specialize (Hall item Hin).
  unfold resolves_with_details in Hall.
  destruct (resolve_state_independent item st initial_state) as [Hfst Hsnd].
  destruct (onCompletionResolve item st) as [res st'] eqn:Hrun.
  cbn in Hfst, Hsnd. subst st'. rewrite <- Hfst in Hall.
  destruct res as [r|e].
  - split.
    + intros Hdata. rewrite bool_decide_eq_true_2 in Hall by done.
      symmetry in Hall. apply andb_true_iff in Hall as [H1 H2].
      exists r. split_and!; [done | by apply bool_decide_eq_true in H1 |].
      by apply negb_true_iff, bool_decide_eq_false in H2.
    + intros (r' & [= <-] & Hdet & Hdoc).
      rewrite (bool_decide_eq_true_2 _ Hdet) in Hall.
      rewrite (bool_decide_eq_false_2 _ Hdoc) in Hall.
      by apply bool_decide_eq_true in Hall.
  - split.
    + intros Hdata. by rewrite bool_decide_eq_true_2 in Hall.
    + by intros (r' & [= ] & _).
Qed.

(** X3: of the items the completion handler returns, resolve succeeds on
    exactly those that carry resolve data, the function and keyword items,
    and gives each a detail and a documentation; on the bracket and quote
    items it returns, resolve throws. *)
Theorem completion_items_resolve (p : TextDocumentPositionParams)
  (st : ServerState) :
  ∃ items,
    onCompletion p st = (Ok items, st)
    ∧ Forall (fun item =>
                is_Some (data item)
                ↔ ∃ r, onCompletionResolve item st = (Ok r, st)
                       ∧ is_Some (detail r) ∧ documentation r ≠ NoDoc) items
    ∧ Forall (fun item =>
                data item = None
                ↔ ∃ e, fst (onCompletionResolve item st) = Throw e) items
    ∧ length (filter (fun item => is_Some (data item)) items)
      = (length functions + length keywords)%nat.
Proof.
  exists completionList. split_and!; [done | | | by vm_compute].
  - apply Forall_forall. intros item Hin. by apply completion_item_resolves.
  - apply Forall_forall. intros item Hin.
    pose proof (completion_item_resolves item st Hin) as Hres.
    split.
    + intros Hd. unfold onCompletionResolve. rewrite resolve_no_data by done.
      by eexists.
    + intros [e He]. destruct (data item) as [d|] eqn:Hd; [|done].
      destruct Hres as [Hres _]. destruct Hres as (r & Hr & _); [by eexists|].
      by rewrite Hr in He.
Qed.

(** X4: the [switch] of the resolve handler and the [keywords] array
    agree: the switch has a case for a string exactly when the string is
    one of the keywords. *)
Theorem keywordDocumentation_iff_keyword (k : string) :
  is_Some (keywordDocumentation (Some k)) ↔ k ∈ keywords.
Proof.
  split.
  - unfold keywordDocumentation, keywords.
    repeat match goal with
           | |- context [String.eqb k ?s] =>
               destruct (String.eqb_spec k s) as [->|?];
               [intros _; set_solver|]
           end.
    cbn. by intros [? ?].
  - intros Hin. pose proof keywordDocumentation_catalog as Hall.
    rewrite Forall_forall in Hall. by apply Hall.
Qed.

(** X5: what resolve attaches is determined by the resolve data alone:
    two items with the same data locating a catalog entry, whatever their
    labels and whatever detail and documentation they arrive with, leave
    with one and the same detail and documentation. *)
Theorem resolve_determined_by_data (item1 item2 : CompletionItem)
  (st1 st2 : ServerState) (Hdata : data item1 = data item2)
  (Hloc : locates_entry item1 = true) :
  ∃ det doc,
    onCompletionResolve item1 st1
    = (Ok (set_documentation doc (set_detail det item1)), st1)
    ∧ onCompletionResolve item2 st2
      = (Ok (set_documentation doc (set_detail det item2)), st2).
Proof.
  unfold locates_entry, onCompletionResolve in *.
  destruct (data item1) as [d|] eqn:Hd; [|done]. symmetry in Hdata.
  destruct (select_branch_cases (type d))
    as [[Hk Hb]|[[Hf Hb]|(Hk & Hf & Hb)]]; rewrite Hb in Hloc; [| |done].
  - apply bool_decide_eq_true in Hloc as [keyword Hkw].
    rewrite !(resolve_keyword _ _ _ d) by done. rewrite Hkw. cbn zeta.
    assert (is_Some (keywordDocumentation (Some keyword))) as [doc Hdoc].
    { pose proof keywordDocumentation_catalog as Hall.
      rewrite Forall_forall in Hall. apply Hall.
      unfold index in Hkw. case_decide; [|done].
      by eapply list_elem_of_lookup_2. }
    rewrite Hdoc. by eexists _, _.
  - apply bool_decide_eq_true in Hloc as [func Hfn].
    rewrite !(resolve_function _ _ _ d) by done. rewrite Hfn.
    by eexists _, _.
Qed.

(** An item that arrives under another entry's name, already detailed. *)
Definition mislabelled_item : CompletionItem :=
  {| label := "print"; kind := Function; insertText := None;
     data := Some {| type := "function"; id := 0 |};
     detail := Some "IO: print"; documentation := DocString "Print to stdout" |}.

Lemma resolve_determined_by_data_witness :
  ∃ det doc,
    onCompletionResolve
      (functionItem 0 (Fn.Build_t "to_timestamp" "Date" "Convert to timestamp"))
      initial_state
    = (Ok (set_documentation doc
             (set_detail det
                (functionItem 0 (Fn.Build_t "to_timestamp" "Date"
                                   "Convert to timestamp")))), initial_state)
    ∧ onCompletionResolve mislabelled_item closed_state
      = (Ok (set_documentation doc (set_detail det mislabelled_item)),
         closed_state).
Proof.
  apply (resolve_determined_by_data
           (functionItem 0 (Fn.Build_t "to_timestamp" "Date"
                              "Convert to timestamp"))
           mislabelled_item initial_state closed_state);
    reflexivity.
Defined.

(** ** Initialization and the capability flags *)

Lemma workspace_flag_true f c :
  workspace_flag f c = true ↔ ∃ w, workspace c = Some w ∧ f w = Some true.
Proof.
  unfold workspace_flag. destruct (workspace c) as [w|].
  - destruct (f w) as [[]|] eqn:Hf.
    + split; [by exists w | done].
    + split; [done | by intros (? & [= <-] & ?); congruence].
    + split; [done | by intros (? & [= <-] & ?); congruence].
  - split; [done | by intros (? & ? & _)].
Qed.

(** X6: initialization records the client's capabilities and nothing
    else: a flag is set exactly when the client declared the workspace
    capability as true, the open documents are kept, and the answer
    advertises workspace-folder support exactly when the folder flag is
    set. *)
Theorem initialize_records_capabilities (params : InitializeParams)
  (st : ServerState) :
  ∃ result st',
    onInitialize params st = (Ok result, st')
    ∧ documents st' = documents st
    ∧ (hasConfigurationCapability st' = true
       ↔ ∃ w, workspace (capabilities params) = Some w
              ∧ configuration w = Some true)
    ∧ (hasWorkspaceFolderCapability st' = true
       ↔ ∃ w, workspace (capabilities params) = Some w
              ∧ workspaceFolders w = Some true)
    ∧ (server_workspace (server_capabilities result)
       = Some {| supported := true |}
       ↔ hasWorkspaceFolderCapability st' = true).
Proof.
  eexists _, _. rewrite onInitialize_run.
  split_and!; [done | done | apply workspace_flag_true
              | apply workspace_flag_true |].
  cbn. by destruct (workspace_flag workspaceFolders (capabilities params)).
Qed.

(** X7: the flags are overwritten, not accumulated: after two
    initialize requests the state and the answer are those of the second
    request alone. *)
Theorem initialize_last_wins (p1 p2 : InitializeParams) (st : ServerState) :
  (onInitialize p1 ≫= fun _ => onInitialize p2) st
  = (fst (onInitialize p2 st), snd (onInitialize p2 st))
  ∧ snd (onInitialize p2 (snd (onInitialize p1 st))) = snd (onInitialize p2 st).
Proof.
  unfold mbind at 1, M_bind at 1. by rewrite !onInitialize_run.
Qed.

(** The state after a subscription of a workspace-folder listener, and the
    state after more calls on the connection. *)
Definition subscribed (s : Server) : Server :=
  let s1 := if workspaceFoldersRegistered s then s
            else set_workspaceFoldersRegistered
                   (append_sent RegisterDidChangeWorkspaceFolders s) in
  set_workspaceFoldersListeners (S (workspaceFoldersListeners s1)) s1.

Definition extend_sent (new : list Outgoing) (s : Server) : Server :=
  {| core := core s; globalSettings := globalSettings s;
     documentSettings := documentSettings s;
     workspaceFoldersListeners := workspaceFoldersListeners s;
     workspaceFoldersRegistered := workspaceFoldersRegistered s;
     sent := (sent s ++ new)%list |}.

Lemma listeners_run n s :
  Nat.iter n (fun rest : H unit => workspaceFoldersListener ≫= fun _ => rest)
           (mret tt) s
  = (Ok tt,
     extend_sent
       (replicate n (ConsoleLog "Workspace folder change event received.")) s).
Proof.
  revert s. induction n as [|n IH]; intros s.
  - cbn. unfold mret, H_ret, extend_sent. rewrite app_nil_r. by destruct s.
  - rewrite Nat.iter_succ. unfold mbind at 1, H_bind at 1.
    unfold workspaceFoldersListener at 1, send, modifyH.
    rewrite IH. unfold extend_sent. cbn. by rewrite <- app_assoc.
Qed.

Lemma onDidChangeWorkspaceFolders_run s :
  onDidChangeWorkspaceFolders s = (Ok tt, subscribed s).
Proof.
  unfold onDidChangeWorkspaceFolders, subscribed, mbind, H_bind, getsH, send,
    modifyH, mret, H_ret.
  by destruct (workspaceFoldersRegistered s).
Qed.

Section HandlerRuns.
Variable s : Server.

Lemma onInitialized_run :
  onInitialized s
  = (Ok tt,
     let s1 := if hasConfigurationCapability (core s)
               then append_sent RegisterDidChangeConfiguration s else s in
     if hasWorkspaceFolderCapability (core s) then subscribed s1 else s1).
Proof.
  unfold onInitialized, mbind, H_bind, getsH, send, modifyH, mret, H_ret. cbn.
  destruct (hasConfigurationCapability (core s)); cbn;
    destruct (hasWorkspaceFolderCapability (core s));
    by rewrite ?onDidChangeWorkspaceFolders_run.
Qed.

Lemma workspaceFoldersChanged_run :
  workspaceFoldersChanged s
  = (Ok tt,
     extend_sent
       (replicate (workspaceFoldersListeners s)
                  (ConsoleLog "Workspace folder change event received.")) s).
Proof.
  unfold workspaceFoldersChanged, mbind at 1, H_bind at 1, getsH.
  apply listeners_run.
Qed.

Lemma onDidChangeConfiguration_run change :
  onDidChangeConfiguration change s
  = if hasConfigurationCapability (core s)
    then (Ok tt, set_documentSettings (fun _ => ∅) s)
    else match settings change with
         | SettingsNull =>
             (Throw (TypeError
                "Cannot read properties of null (reading 'languageServerExample')"),
              s)
         | SettingsUndefined =>
             (Throw (TypeError
                "Cannot read properties of undefined (reading 'languageServerExample')"),
              s)
         | SettingsObject example =>
             (Ok tt, set_globalSettings (default defaultSettings example) s)
         end.
Proof.
  unfold onDidChangeConfiguration, mbind, H_bind, getsH, modifyH, throwH. cbn.
  destruct (hasConfigurationCapability (core s)); [done|].
  by destruct (settings change).
Qed.

Lemma getDocumentSettings_run resource :
  getDocumentSettings resource s
  = if hasConfigurationCapability (core s)
    then match documentSettings s !! resource with
         | Some result => (Ok result, s)
         | None =>
             (Ok (Requested (length (sent s))),
              set_documentSettings
                (insert resource (Requested (length (sent s))))
                (append_sent (GetConfiguration resource "languageServerExample")
                             s))
         end
    else (Ok (Resolved (globalSettings s)), s).
Proof.
  unfold getDocumentSettings, getConfiguration, mbind, H_bind, getsH, send,
    modifyH, mret, H_ret. cbn.
  destruct (hasConfigurationCapability (core s)); cbn; [|done].
  by destruct (documentSettings s !! resource).
Qed.

Lemma liftM_onInitialize_run params :
  liftM (onInitialize params) s
  = (fst (onInitialize params (core s)),
     set_core (snd (onInitialize params (core s))) s).
Proof. unfold liftM. by rewrite onInitialize_run. Qed.

End HandlerRuns.

(** The state each step leaves. *)
Lemma run_nil s : run [] s = s.
Proof. reflexivity. Qed.

Lemma run_cons m ms s : run (m :: ms) s = run ms (snd (handle m s)).
Proof. reflexivity. Qed.

Lemma run_app ms1 ms2 s : run (ms1 ++ ms2)%list s = run ms2 (run ms1 s).
Proof. apply foldl_app. Qed.

Lemma handle_Initialize params s :
  snd (handle (Initialize params) s)
  = set_core (set_capability_flags
                (workspace_flag configuration (capabilities params))
                (workspace_flag workspaceFolders (capabilities params))
                (core s))
             (if workspace_flag workspaceFolders (capabilities params)
              then set_workspaceFoldersListeners 0 s else s).
Proof.
  cbn [handle]. unfold initializeWorkspaceFolders, discard, mbind, H_bind.
  destruct (workspace_flag workspaceFolders (capabilities params)) eqn:Hf; cbn;
    rewrite liftM_onInitialize_run, onInitialize_run; cbn; by rewrite Hf.
Qed.

Lemma handle_Initialized s :
  snd (handle Initialized s)
  = let s1 := if hasConfigurationCapability (core s)
              then append_sent RegisterDidChangeConfiguration s else s in
    if hasWorkspaceFolderCapability (core s) then subscribed s1 else s1.
Proof. cbn [handle]. by rewrite onInitialized_run. Qed.

Lemma handle_DidChangeWorkspaceFolders s :
  snd (handle DidChangeWorkspaceFolders s)
  = extend_sent
      (replicate (workspaceFoldersListeners s)
                 (ConsoleLog "Workspace folder change event received.")) s.
Proof. cbn [handle]. by rewrite workspaceFoldersChanged_run. Qed.

Lemma handle_Completion params s : snd (handle (Completion params) s) = s.
Proof. by destruct s. Qed.

Lemma handle_CompletionResolve item s :
  snd (handle (CompletionResolve item) s) = s.
Proof.
  cbn [handle]. unfold discard, mbind, H_bind, liftM.
  destruct (resolve_state_independent item (core s) (core s)) as [_ Hsnd].
  destruct (onCompletionResolve item (core s)) as [[r|e] st]; cbn in *;
    subst st; by destruct s.
Qed.

Lemma handle_DocumentSettings resource s :
  snd (handle (DocumentSettings resource) s)
  = snd (getDocumentSettings resource s).
Proof.
  cbn [handle]. unfold discard, mbind, H_bind. rewrite getDocumentSettings_run.
  destruct (hasConfigurationCapability (core s)); [|done].
  by destruct (documentSettings s !! resource).
Qed.

(** What [k] initialized notifications in a row do. *)
Lemma run_Initialized k s :
  let rc := if hasConfigurationCapability (core s)
            then [RegisterDidChangeConfiguration] else [] in
  let rf := if hasWorkspaceFolderCapability (core s)
               && negb (workspaceFoldersRegistered s)
            then [RegisterDidChangeWorkspaceFolders] else [] in
  let s' := run (replicate k Initialized) s in
  core s' = core s
  ∧ globalSettings s' = globalSettings s
  ∧ documentSettings s' = documentSettings s
  ∧ workspaceFoldersListeners s'
    = (workspaceFoldersListeners s
       + if hasWorkspaceFolderCapability (core s) then k else 0)%nat
  ∧ sent s'
    = (sent s ++ match k with
                 | O => []
                 | S k' => rc ++ rf ++ mjoin (replicate k' rc)
                 end)%list.
Proof.
  revert s. induction k as [|k IH]; intros s; cbn zeta.
  - cbn. rewrite app_nil_r. split_and!; try done.
    destruct (hasWorkspaceFolderCapability (core s)); lia.
  - cbn [replicate]. rewrite run_cons.
    destruct (IH (snd (handle Initialized s))) as (Hc & Hg & Hd & Hl & Hs).
    rewrite Hc, Hg, Hd, Hl, Hs. clear IH Hc Hg Hd Hl Hs.
    rewrite handle_Initialized. cbn zeta. unfold subscribed.
    destruct (hasConfigurationCapability (core s)) eqn:Hconf,
             (hasWorkspaceFolderCapability (core s)) eqn:Hfold,
             (workspaceFoldersRegistered s) eqn:Hreg;
      cbn; rewrite ?Hconf, ?Hfold, ?Hreg; cbn; rewrite ?Hconf, ?Hfold, ?Hreg;
      cbn; (split_and!; [done | done | done | lia |]);
      destruct k; cbn; by rewrite ?app_nil_r, <- ?app_assoc.
Qed.

(** X8: what the initialized notification sets up follows the client's
    capabilities, and is set up again at every initialized notification:
    after an initialize request and [k] initialized notifications, the
    handler has registered for configuration changes [k] times when the
    client declared [workspace.configuration] and never otherwise, and has
    subscribed [k] workspace-folder listeners when the client declared
    [workspace.workspaceFolders] (the library registering for the
    notification at the first one, unless it had before, and having
    dropped the earlier listeners at the initialize request) and none
    otherwise; a workspace-folder event then logs one line per subscribed
    listener; the settings and their cache are left alone. *)
Theorem initialized_follows_capabilities (params : InitializeParams)
  (k : nat) (s : Server) :
  let rc := if workspace_flag configuration (capabilities params)
            then [RegisterDidChangeConfiguration] else [] in
  let rf := if workspace_flag workspaceFolders (capabilities params)
               && negb (workspaceFoldersRegistered s)
            then [RegisterDidChangeWorkspaceFolders] else [] in
  let s' := run (Initialize params :: replicate k Initialized) s in
  sent s'
  = (sent s ++ match k with
               | O => []
               | S k' => rc ++ rf ++ mjoin (replicate k' rc)
               end)%list
  ∧ workspaceFoldersListeners s'
    = (if workspace_flag workspaceFolders (capabilities params)
       then k else workspaceFoldersListeners s)
  ∧ sent (run [DidChangeWorkspaceFolders] s')
    = (sent s'
       ++ replicate (workspaceFoldersListeners s')
                    (ConsoleLog "Workspace folder change event received."))%list
  ∧ globalSettings s' = globalSettings s
  ∧ documentSettings s' = documentSettings s.
Proof.
  cbn zeta. rewrite !run_cons, run_nil, handle_DidChangeWorkspaceFolders.
  unfold extend_sent. cbn [sent workspaceFoldersListeners].
  destruct (run_Initialized k (snd (handle (Initialize params) s)))
    as (_ & Hg & Hd & Hl & Hs).
  rewrite !Hg, !Hd, !Hl, !Hs, handle_Initialize.
  destruct (workspace_flag configuration (capabilities params)),
           (workspace_flag workspaceFolders (capabilities params)); cbn;
    (split_and!; [done | lia | done | done | done]).
Qed.

(** ** Settings *)

(** X9: under the configuration capability, a configuration change, with
    whatever settings, even [null], empties the cache and leaves the
    global settings and the connection alone; so the next
    [getDocumentSettings] of any resource, cached before or not, sends a
    fresh request for that resource and caches its promise. *)
Theorem configuration_change_invalidates_cache (s : Server)
  (change : DidChangeConfigurationParams) (resource : string)
  (Hconf : hasConfigurationCapability (core s) = true) :
  ∃ s1 s2,
    onDidChangeConfiguration change s = (Ok tt, s1)
    ∧ documentSettings s1 = ∅
    ∧ globalSettings s1 = globalSettings s ∧ sent s1 = sent s
    ∧ getDocumentSettings resource s1 = (Ok (Requested (length (sent s))), s2)
    ∧ sent s2
      = (sent s ++ [GetConfiguration resource "languageServerExample"])%list
    ∧ documentSettings s2 = {[ resource := Requested (length (sent s)) ]}.
Proof.
  eexists _, _. rewrite onDidChangeConfiguration_run, Hconf.
  split_and!; [done | done | done | done | | |].
  - rewrite getDocumentSettings_run. cbn. rewrite Hconf.
    by rewrite lookup_empty.
  - done.
  - done.
Qed.

(** A server whose client declared the configuration capability and for
    which one resource is cached. *)
Definition configured_server : Server :=
  run [ Initialize {| capabilities :=
                        {| workspace := Some {| configuration := Some true;
                                                workspaceFolders := None |} |} |};
        Initialized; DocumentSettings "file:///a.rel" ]
      initial_server.

Lemma configuration_change_invalidates_cache_witness :
  ∃ s1 s2,
    onDidChangeConfiguration {| settings := SettingsNull |} configured_server
    = (Ok tt, s1)
    ∧ documentSettings s1 = ∅
    ∧ globalSettings s1 = globalSettings configured_server
    ∧ sent s1 = sent configured_server
    ∧ getDocumentSettings "file:///a.rel" s1
      = (Ok (Requested (length (sent configured_server))), s2)
    ∧ sent s2
      = (sent configured_server
         ++ [GetConfiguration "file:///a.rel" "languageServerExample"])%list
    ∧ documentSettings s2
      = {[ "file:///a.rel" := Requested (length (sent configured_server)) ]}.
Proof.
  apply (configuration_change_invalidates_cache configured_server
           {| settings := SettingsNull |} "file:///a.rel").
  reflexivity.
Defined.

(** X10: without the configuration capability, the settings of a
    configuration change become the global settings, the defaults
    standing in when the [languageServerExample] section is missing, and
    they are what [getDocumentSettings] then answers for every resource,
    already resolved, without a request and without touching the cache. *)
Theorem global_settings_follow_configuration (s : Server)
  (example : option ExampleSettings) (resource : string)
  (Hconf : hasConfigurationCapability (core s) = false) :
  (onDidChangeConfiguration {| settings := SettingsObject example |}
   ≫= fun _ => getDocumentSettings resource) s
  = (Ok (Resolved (match example with
                   | Some given => given
                   | None => defaultSettings
                   end)),
     set_globalSettings (default defaultSettings example) s)
  ∧ sent (set_globalSettings (default defaultSettings example) s) = sent s
  ∧ documentSettings (set_globalSettings (default defaultSettings example) s)
    = documentSettings s.
Proof.
  unfold mbind at 1, H_bind at 1.
  rewrite onDidChangeConfiguration_run, Hconf. cbn [settings].
  rewrite getDocumentSettings_run. cbn. rewrite Hconf. by destruct example.
Qed.

Lemma global_settings_follow_configuration_witness :
  (onDidChangeConfiguration
     {| settings := SettingsObject (Some {| maxNumberOfProblems := 7 |}) |}
   ≫= fun _ => getDocumentSettings "file:///a.rel") initial_server
  = (Ok (Resolved {| maxNumberOfProblems := 7 |}),
     set_globalSettings {| maxNumberOfProblems := 7 |} initial_server).
Proof.
  apply (global_settings_follow_configuration initial_server
           (Some {| maxNumberOfProblems := 7 |}) "file:///a.rel").
  reflexivity.
Defined.

(** X11: without the configuration capability, a configuration change
    whose [settings] is [null] or [undefined] makes the handler throw a
    [TypeError], and the state, the global settings included, stays as it
    was. *)
Theorem configuration_change_without_settings_throws (s : Server)
  (change : DidChangeConfigurationParams)
  (Hconf : hasConfigurationCapability (core s) = false)
  (Hnone : settings change = SettingsNull ∨ settings change = SettingsUndefined) :
  ∃ message, onDidChangeConfiguration change s = (Throw (TypeError message), s).
Proof.
  rewrite onDidChangeConfiguration_run, Hconf.
  destruct Hnone as [-> | ->]; by eexists.
Qed.

Lemma configuration_change_without_settings_throws_witness :
  ∃ message,
    onDidChangeConfiguration {| settings := SettingsNull |} initial_server
    = (Throw (TypeError message), initial_server).
Proof.
  apply (configuration_change_without_settings_throws initial_server
           {| settings := SettingsNull |}); [reflexivity | by left].
Defined.

(** X12: [getDocumentSettings] caches: asking twice for a resource
    answers, and leaves the state, as asking once does; a request goes out
    only under the configuration capability and only when the resource is
    not cached, with the resource as scope and the section
    [languageServerExample]. *)
Theorem getDocumentSettings_caches (resource : string) (s : Server) :
  (getDocumentSettings resource ≫= fun _ => getDocumentSettings resource) s
  = getDocumentSettings resource s
  ∧ sent (snd (getDocumentSettings resource s))
    = (sent s
       ++ (if hasConfigurationCapability (core s)
              && bool_decide (documentSettings s !! resource = None)
           then [GetConfiguration resource "languageServerExample"]
           else []))%list.
Proof.
  unfold mbind at 1, H_bind at 1. rewrite getDocumentSettings_run.
  destruct (hasConfigurationCapability (core s)) eqn:Hconf; cbn.
  - destruct (documentSettings s !! resource) as [result|] eqn:Hcached; cbn.
    + rewrite getDocumentSettings_run, Hconf, Hcached.
      by rewrite app_nil_r.
    + rewrite getDocumentSettings_run. cbn. rewrite Hconf.
      by rewrite lookup_insert_eq.
  - rewrite getDocumentSettings_run, Hconf. by rewrite app_nil_r.
Qed.

(** X13: the cache keeps resources apart: [getDocumentSettings] for one
    resource leaves the cache entry of every other resource, and the
    global settings, as they were. *)
Theorem getDocumentSettings_other_resource (resource other : string)
  (s : Server) (Hne : other ≠ resource) :
  documentSettings (snd (getDocumentSettings resource s)) !! other
  = documentSettings s !! other
  ∧ globalSettings (snd (getDocumentSettings resource s)) = globalSettings s.
Proof.
  rewrite getDocumentSettings_run.
  destruct (hasConfigurationCapability (core s)); [|done].
  destruct (documentSettings s !! resource); [done|]. cbn.
  by rewrite lookup_insert_ne.
Qed.

Lemma getDocumentSettings_other_resource_witness :
  documentSettings (snd (getDocumentSettings "file:///b.rel" configured_server))
    !! "file:///a.rel"
  = documentSettings configured_server !! "file:///a.rel".
Proof.
  apply (getDocumentSettings_other_resource "file:///b.rel" "file:///a.rel"
           configured_server).
  discriminate.
Defined.

(** ** Invariants of the server *)

(** Every cached promise is the promise of a configuration request that was
    sent for the resource it is cached under. *)
Definition cache_sound (s : Server) : Prop :=
  ∀ resource t,
    documentSettings s !! resource = Some t →
    ∃ n, t = Requested n
         ∧ sent s !! n = Some (GetConfiguration resource "languageServerExample").

(** What one step can do to the messages sent and to the cache: it appends
    to the former, and keeps the latter, empties it, or adds the promise of
    the request it has just sent. *)
Lemma handle_effect m s :
  ∃ new,
    sent (snd (handle m s)) = (sent s ++ new)%list
    ∧ (documentSettings (snd (handle m s)) = documentSettings s
       ∨ documentSettings (snd (handle m s)) = ∅
       ∨ ∃ resource,
           new = [GetConfiguration resource "languageServerExample"]
           ∧ documentSettings (snd (handle m s))
             = <[resource := Requested (length (sent s))]> (documentSettings s)).
Proof.
  destruct m as [params| |change| | |params|item|resource].
  - rewrite handle_Initialize. exists []. rewrite app_nil_r.
    by destruct (workspace_flag workspaceFolders (capabilities params)); auto.
  - rewrite handle_Initialized. cbn zeta. unfold subscribed.
    destruct (hasConfigurationCapability (core s)),
             (hasWorkspaceFolderCapability (core s)),
             (workspaceFoldersRegistered s) eqn:Hreg;
      cbn; rewrite ?Hreg; cbn;
      first [ by exists [RegisterDidChangeConfiguration;
                         RegisterDidChangeWorkspaceFolders];
                 rewrite <- ?app_assoc; auto
            | by exists [RegisterDidChangeConfiguration]; auto
            | by exists [RegisterDidChangeWorkspaceFolders]; auto
            | by exists []; rewrite app_nil_r; auto ].
  - cbn [handle]. rewrite onDidChangeConfiguration_run.
    exists []. rewrite app_nil_r.
    destruct (hasConfigurationCapability (core s)); [by auto|].
    destruct (settings change); by auto.
  - by exists [ConsoleLog "We received a file change event"]; auto.
  - rewrite handle_DidChangeWorkspaceFolders. by eexists; auto.
  - rewrite handle_Completion. exists []. by rewrite app_nil_r; auto.
  - rewrite handle_CompletionResolve. exists []. by rewrite app_nil_r; auto.
  - rewrite handle_DocumentSettings, getDocumentSettings_run.
    destruct (hasConfigurationCapability (core s));
      [|exists []; by rewrite app_nil_r; auto].
    destruct (documentSettings s !! resource).
    + exists []. by rewrite app_nil_r; auto.
    + exists [GetConfiguration resource "languageServerExample"]. cbn.
      split; [done|]. right; right. by exists resource.
Qed.

Lemma handle_cache_sound m s : cache_sound s → cache_sound (snd (handle m s)).
Proof.
  intros Hinv.
  destruct (handle_effect m s) as (new & Hsent & [Hc|[Hc|(r & -> & Hc)]]);
    intros resource t; rewrite Hc, Hsent.
  - intros Hl. destruct (Hinv resource t Hl) as (n & -> & Hn).
    exists n. split; [done|]. by apply lookup_app_l_Some.
  - by rewrite lookup_empty.
  - destruct (decide (r = resource)) as [->|Hne].
    + rewrite lookup_insert_eq. intros [= <-]. eexists. split; [done|].
      by rewrite lookup_app_r, Nat.sub_diag.
    + rewrite lookup_insert_ne by done. intros Hl.
      destruct (Hinv resource t Hl) as (n & -> & Hn).
      exists n. split; [done|]. by apply lookup_app_l_Some.
Qed.

(** X14: whatever messages the server has handled since its start, and
    whatever calls of [getDocumentSettings] were made in between, every
    promise in the settings cache is the promise of a configuration
    request the server did send, for the very resource it is cached
    under and the section [languageServerExample]; a resolved promise of
    the global settings is never cached. *)
Theorem cache_points_to_requests (ms : list Step) :
  cache_sound (run ms initial_server)
  ∧ ∀ resource settings,
      documentSettings (run ms initial_server) !! resource
      ≠ Some (Resolved settings).
Proof.
  assert (cache_sound (run ms initial_server)) as Hinv.
  { induction ms as [|m ms IH] using rev_ind.
    - intros resource t. cbn. by rewrite lookup_empty.
    - rewrite run_app, run_cons, run_nil. by apply handle_cache_sound. }
  split; [done|].
  intros resource g Hl. by destruct (Hinv _ _ Hl) as (n & ? & _).
Qed.

(** Calls on the connection are only ever added, along any sequence of
    steps. *)
Lemma sent_only_grows (ms : list Step) (s : Server) :
  sent s `prefix_of` sent (run ms s).
Proof.
  revert s. induction ms as [|m ms IH]; intros s; [done|].
  rewrite run_cons. etrans; [|apply IH].
  destruct (handle_effect m s) as (new & -> & _). by apply prefix_app_r.
Qed.

(** X15: the completion and resolve requests leave the whole server
    state alone, also when resolve throws: they send nothing, and change
    neither the capability flags, nor the settings, nor the cache. *)
Theorem completion_steps_keep_state (ms : list Step) (s : Server) :
  Forall (fun m => match m with
                   | Completion _ | CompletionResolve _ => True
                   | _ => False
                   end) ms →
  run ms s = s.
Proof.
  induction 1 as [|m ms Hm _ IH]; [done|].
  rewrite run_cons.
  destruct m; try done; by rewrite ?handle_Completion, ?handle_CompletionResolve.
Qed.

Lemma completion_steps_keep_state_witness :
  run [Completion closed_params; CompletionResolve (textItem "(");
       CompletionResolve stale_function; CompletionResolve (keywordItem 0 "if")]
      configured_server
  = configured_server.
Proof.
  apply (completion_steps_keep_state
           [Completion closed_params; CompletionResolve (textItem "(");
            CompletionResolve stale_function;
            CompletionResolve (keywordItem 0 "if")]
           configured_server).
  repeat constructor.
Defined.

(** ** The client extension *)

Section ExtensionFacts.
Import Extension.

Lemma runnable_true ed :
  runnable ed = true
  ↔ ∃ document, ed = Some document ∧ languageId document = "round-el"
                ∧ isUntitled document = false ∧ uri_scheme document = "file".
Proof.
  destruct ed as [document|]; cbn; [|by split; [|intros (? & ? & _)]].
  rewrite !andb_true_iff, negb_true_iff, !String.eqb_eq. split.
  - intros [[? ?] ?]. by exists document.
  - by intros (? & [= <-] & ? & ? & ?).
Qed.

Lemma runRel_runnable document st :
  languageId document = "round-el" → isUntitled document = false →
  uri_scheme document = "file" →
  let t := default {| terminal_name := "Round El" |} (terminal st) in
  terminal (runRel (Some document) st) = Some t
  ∧ effects (runRel (Some document) st)
    = (effects st
       ++ (if terminal st is Some _ then [] else [CreateTerminal "Round El"])
       ++ [TerminalShow t; TerminalSendText t (rel_command (fileName document))])%list
  ∧ subscriptions (runRel (Some document) st)
    = (subscriptions st
       ++ (if terminal st is Some _ then [] else [TerminalDisposable t]))%list
  ∧ client (runRel (Some document) st) = client st.
Proof.
  intros Hlang Hsaved Hfile. unfold runRel. rewrite Hlang, Hsaved, Hfile. cbn.
  destruct (terminal st) as [t|] eqn:Ht; cbn.
  - rewrite Ht. cbn. rewrite app_nil_r, <- app_assoc. by split_and!.
  - rewrite <- !app_assoc. by split_and!.
Qed.

Lemma runRel_not_runnable ed st :
  runnable ed = false →
  client (runRel ed st) = client st
  ∧ terminal (runRel ed st) = terminal st
  ∧ subscriptions (runRel ed st) = subscriptions st
  ∧ effects (runRel ed st)
    = (effects st
       ++ match ed with
          | None => [ShowErrorMessage "No active editor"]
          | Some document =>
              if (languageId document =? "round-el")%string then []
              else [ShowErrorMessage "Current file is not a Round El file"]
          end)%list.
Proof.
  intros Hno. unfold runRel. destruct ed as [document|]; [|done]. cbn in Hno.
  destruct (languageId document =? "round-el")%string; cbn in *; [|done].
  rewrite Hno. by rewrite app_nil_r.
Qed.

(** X16: for a saved Round El file, [runRel] shows the terminal and then
    sends it the command [rel] with the file path between double quotes,
    as its last two calls; the terminal is the one already held, or else a
    terminal named [Round El] that is created first, kept for later runs
    and added to the subscriptions; the client is left alone. *)
Theorem runRel_runs_file (document : TextDocument) (st : State)
  (Hlang : languageId document = "round-el")
  (Hsaved : isUntitled document = false)
  (Hfile : uri_scheme document = "file") :
  ∃ t,
    terminal (runRel (Some document) st) = Some t
    ∧ t = default {| terminal_name := "Round El" |} (terminal st)
    ∧ effects (runRel (Some document) st)
      = (effects st
         ++ (if terminal st is Some _ then [] else [CreateTerminal "Round El"])
         ++ [TerminalShow t; TerminalSendText t (rel_command (fileName document))])%list
    ∧ subscriptions (runRel (Some document) st)
      = (subscriptions st
         ++ (if terminal st is Some _ then [] else [TerminalDisposable t]))%list
    ∧ client (runRel (Some document) st) = client st.
Proof.
  destruct (runRel_runnable document st Hlang Hsaved Hfile)
    as (Ht & He & Hs & Hc).
  eexists. by split_and!.
Qed.

Definition saved_file : TextDocument :=
  {| languageId := "round-el"; isUntitled := false; uri_scheme := "file";
     fileName := "/home/user/main.rel" |}.

Lemma runRel_runs_file_witness :
  ∃ t,
    terminal (runRel (Some saved_file) initial) = Some t
    ∧ t = default {| terminal_name := "Round El" |} (terminal initial)
    ∧ effects (runRel (Some saved_file) initial)
      = (effects initial
         ++ (if terminal initial is Some _ then [] else [CreateTerminal "Round El"])
         ++ [TerminalShow t;
             TerminalSendText t (rel_command (fileName saved_file))])%list
    ∧ subscriptions (runRel (Some saved_file) initial)
      = (subscriptions initial
         ++ (if terminal initial is Some _ then [] else [TerminalDisposable t]))%list
    ∧ client (runRel (Some saved_file) initial) = client initial.
Proof.
  apply (runRel_runs_file saved_file initial); reflexivity.
Defined.

(** X17: in every other case [runRel] runs nothing: it creates no
    terminal and sends no command, and keeps the client, the terminal and
    the subscriptions; it shows one error message when there is no active
    editor or the document is not a Round El document, and does nothing at
    all, not even a message, for a Round El document that is untitled or
    not a file. *)
Theorem runRel_refuses (ed : option TextDocument) (st : State)
  (Hno : runnable ed = false) :
  client (runRel ed st) = client st
  ∧ terminal (runRel ed st) = terminal st
  ∧ subscriptions (runRel ed st) = subscriptions st
  ∧ effects (runRel ed st)
    = (effects st
       ++ match ed with
          | None => [ShowErrorMessage "No active editor"]
          | Some document =>
              if (languageId document =? "round-el")%string then []
              else [ShowErrorMessage "Current file is not a Round El file"]
          end)%list.
Proof. by apply runRel_not_runnable. Qed.

Definition untitled_file : TextDocument :=
  {| languageId := "round-el"; isUntitled := true; uri_scheme := "untitled";
     fileName := "Untitled-1" |}.

Lemma runRel_refuses_witness :
  effects (runRel (Some untitled_file) initial) = effects initial
  ∧ effects (runRel None initial) = [ShowErrorMessage "No active editor"].
Proof.
  split.
  - destruct (runRel_refuses (Some untitled_file) initial eq_refl)
      as (_ & _ & _ & He).
    rewrite He. reflexivity.
  - destruct (runRel_refuses None initial eq_refl) as (_ & _ & _ & He).
    exact He.
Defined.

Lemma runRel_terminal ed st :
  terminal (runRel ed st)
  = match terminal st with
    | Some t => Some t
    | None => if runnable ed then Some {| terminal_name := "Round El" |}
              else None
    end
  ∧ length (List.filter is_CreateTerminal (effects (runRel ed st)))
    = (length (List.filter is_CreateTerminal (effects st))
       + if terminal st is Some _ then 0 else if runnable ed then 1 else 0)%nat
  ∧ client (runRel ed st) = client st.
Proof.
  destruct (runnable ed) eqn:Hrun.
  - apply runnable_true in Hrun as (document & -> & Hl & Hs & Hf).
    destruct (runRel_runnable document st Hl Hs Hf) as (Ht & He & _ & Hc).
    rewrite Ht, He, !List.filter_app, !length_app.
    destruct (terminal st); cbn; split_and!; first [done | lia].
  - destruct (runRel_not_runnable ed st Hrun) as (Hc & Ht & _ & He).
    rewrite Ht, He, List.filter_app, length_app.
    split_and!; [by destruct (terminal st) | | done].
    destruct ed as [document|]; [|destruct (terminal st); cbn; lia].
    destruct (languageId document =? "round-el")%string, (terminal st);
      cbn; lia.
Qed.

Lemma runRels_terminal (editors : list (option TextDocument))
  (st : State) :
  terminal (runRels editors st)
  = match terminal st with
    | Some t => Some t
    | None => if existsb runnable editors
              then Some {| terminal_name := "Round El" |} else None
    end
  ∧ length (List.filter is_CreateTerminal (effects (runRels editors st)))
    = (length (List.filter is_CreateTerminal (effects st))
       + if terminal st is Some _ then 0 else if existsb runnable editors then 1 else 0)%nat
  ∧ client (runRels editors st) = client st.
Proof.
  revert st. induction editors as [|ed editors IH]; intros st.
  - cbn. split_and!; [by destruct (terminal st) | | done].
    destruct (terminal st); lia.
  - change (runRels (ed :: editors) st) with (runRels editors (runRel ed st)).
    destruct (IH (runRel ed st)) as (Ht & Hn & Hc).
    destruct (runRel_terminal ed st) as (Ht1 & Hn1 & Hc1).
    rewrite Ht, Hn, Hc, Ht1, Hn1, Hc1. cbn [existsb].
    destruct (terminal st), (runnable ed), (existsb runnable editors);
      cbn; split_and!; first [done | lia].
Qed.

(** X18: across any number of runs the extension creates at most one
    terminal: a terminal it holds is kept by every run, and a terminal is
    created, once, only when none is held and some run is for a saved
    Round El file. *)
Theorem runRels_one_terminal (editors : list (option TextDocument))
  (st : State) :
  terminal (runRels editors st)
  = match terminal st with
    | Some t => Some t
    | None => if existsb runnable editors
              then Some {| terminal_name := "Round El" |} else None
    end
  ∧ length (List.filter is_CreateTerminal (effects (runRels editors st)))
    = (length (List.filter is_CreateTerminal (effects st))
       + if terminal st is Some _ then 0 else if existsb runnable editors then 1 else 0)%nat
  ∧ client (runRels editors st) = client st.
Proof. apply runRels_terminal. Qed.

(** X19: [deactivate] stops the client [activate] started, whatever runs
    came in between, and that client launches one and the same server
    module over IPC in run and in debug mode; without a client,
    [deactivate] returns [undefined] and does nothing. *)
Theorem deactivate_stops_started_client (path_join : list string -> string)
  (asAbsolutePath : string -> string) (editors : list (option TextDocument))
  (st : State) :
  (∃ c,
     deactivate (runRels editors (activate path_join asAbsolutePath st))
     = (Some c,
        effect (ClientStop c)
               (runRels editors (activate path_join asAbsolutePath st)))
     ∧ List.In (ClientStart c)
               (effects (activate path_join asAbsolutePath st))
     ∧ run (serverOptions c) = debug (serverOptions c)
     ∧ run (serverOptions c)
       = {| node_module :=
              asAbsolutePath (path_join ["server"; "out"; "server.js"]);
            transport := ipc |})
  ∧ deactivate (runRels editors initial) = (None, runRels editors initial).
Proof.
  split.
  - destruct (runRels_terminal editors
                (activate path_join asAbsolutePath st)) as (_ & _ & Hc).
    unfold deactivate. rewrite Hc. cbn. eexists. split_and!; try done.
    apply in_app_iff. left. apply in_app_iff. right. by left.
  - destruct (runRels_terminal editors initial) as (_ & _ & Hc).
    unfold deactivate. by rewrite Hc.
Qed.

End ExtensionFacts.
